(** * The vSphere driver of packer-builder-vsphere (driver.go)

    A shallow embedding of [driver.go].  The driver is a thin client of
    the govmomi library: every method is a short sequence of calls to
    the remote vCenter endpoint.  The endpoint is not part of the
    program, so it appears here as an oracle ([Remote]) that answers
    each call as a function of everything that has happened so far
    ([World]: the wall clock and the log of earlier calls with their
    answers).  The driver methods are written in a state-and-error
    monad over [World]; what a method did to the endpoint is read off
    the log.  [NewDriver], which opens the session, runs before there is
    an endpoint to talk to and is modelled apart, further down. *)

From Stdlib Require Import ZArith NArith List String Bool Lia.
Import ListNotations.
Local Open Scope string_scope.
Local Open Scope list_scope.
Local Open Scope Z_scope.

(** ** govmomi data types used by the driver *)

(** [vim25/types]: only the fields that driver.go reads or writes are
    kept; every other field of the Go structs stays at its zero value
    throughout and is left out. *)
Module types.

Record ManagedObjectReference : Type := {
  Type_ : string;
  Value : string
}.

Definition VirtualMachinePowerState : Type := string.
Definition VirtualMachinePowerStatePoweredOff : VirtualMachinePowerState := "poweredOff".
Definition VirtualMachinePowerStatePoweredOn  : VirtualMachinePowerState := "poweredOn".
Definition VirtualMachinePowerStateSuspended  : VirtualMachinePowerState := "suspended".

Record VirtualMachineRelocateSpec : Type := {
  Datastore    : option ManagedObjectReference;
  DiskMoveType : string;
  Pool         : option ManagedObjectReference
}.

Record VirtualMachineCloneSpec : Type := {
  Location : VirtualMachineRelocateSpec;
  PowerOn  : bool;
  Snapshot : option ManagedObjectReference
}.

Record ResourceAllocationInfo : Type := {
  Reservation : Z;
  Limit       : Z
}.

Record VirtualMachineConfigSpec : Type := {
  NumCPUs                      : Z;
  MemoryMB                     : Z;
  CpuAllocation                : option ResourceAllocationInfo;
  MemoryAllocation             : option ResourceAllocationInfo;
  MemoryReservationLockedToMax : option bool
}.

#[warnings="-register-all"]
Inductive VirtualMachineSnapshotTree : Type :=
| SnapshotTree (Snapshot : ManagedObjectReference) (Name : string)
               (ChildSnapshotList : list VirtualMachineSnapshotTree).

Record VirtualMachineSnapshotInfo : Type := {
  CurrentSnapshot  : option ManagedObjectReference;
  RootSnapshotList : list VirtualMachineSnapshotTree
}.

(** [TaskInfo.Result] has Go type [AnyType] (an empty interface). *)
Inductive AnyType : Type :=
| AnyRef (ref : ManagedObjectReference)
| AnyOther (descr : string).

Record TaskInfo : Type := { Result : AnyType }.

(** Zero values, as produced by [var x T]. *)
Definition zeroRelocateSpec : VirtualMachineRelocateSpec :=
  {| Datastore := None; DiskMoveType := ""; Pool := None |}.
Definition zeroCloneSpec : VirtualMachineCloneSpec :=
  {| Location := zeroRelocateSpec; PowerOn := false; Snapshot := None |}.
Definition zeroResourceAllocationInfo : ResourceAllocationInfo :=
  {| Reservation := 0; Limit := 0 |}.
Definition zeroConfigSpec : VirtualMachineConfigSpec :=
  {| NumCPUs := 0; MemoryMB := 0; CpuAllocation := None;
     MemoryAllocation := None; MemoryReservationLockedToMax := None |}.

(** Field assignments [x.F = v]. *)
Definition setPool (s : VirtualMachineRelocateSpec) v :=
  {| Datastore := Datastore s; DiskMoveType := DiskMoveType s; Pool := v |}.
Definition setDatastore (s : VirtualMachineRelocateSpec) v :=
  {| Datastore := v; DiskMoveType := DiskMoveType s; Pool := Pool s |}.
Definition setDiskMoveType (s : VirtualMachineRelocateSpec) v :=
  {| Datastore := Datastore s; DiskMoveType := v; Pool := Pool s |}.
Definition setLocation (c : VirtualMachineCloneSpec) v :=
  {| Location := v; PowerOn := PowerOn c; Snapshot := Snapshot c |}.
Definition setPowerOn (c : VirtualMachineCloneSpec) v :=
  {| Location := Location c; PowerOn := v; Snapshot := Snapshot c |}.
Definition setSnapshot (c : VirtualMachineCloneSpec) v :=
  {| Location := Location c; PowerOn := PowerOn c; Snapshot := v |}.
Definition setReservation (a : ResourceAllocationInfo) v :=
  {| Reservation := v; Limit := Limit a |}.
Definition setLimit (a : ResourceAllocationInfo) v :=
  {| Reservation := Reservation a; Limit := v |}.
Definition setNumCPUs (c : VirtualMachineConfigSpec) v :=
  {| NumCPUs := v; MemoryMB := MemoryMB c; CpuAllocation := CpuAllocation c;
     MemoryAllocation := MemoryAllocation c;
     MemoryReservationLockedToMax := MemoryReservationLockedToMax c |}.
Definition setMemoryMB (c : VirtualMachineConfigSpec) v :=
  {| NumCPUs := NumCPUs c; MemoryMB := v; CpuAllocation := CpuAllocation c;
     MemoryAllocation := MemoryAllocation c;
     MemoryReservationLockedToMax := MemoryReservationLockedToMax c |}.
Definition setCpuAllocation (c : VirtualMachineConfigSpec) v :=
  {| NumCPUs := NumCPUs c; MemoryMB := MemoryMB c; CpuAllocation := v;
     MemoryAllocation := MemoryAllocation c;
     MemoryReservationLockedToMax := MemoryReservationLockedToMax c |}.
Definition setMemoryAllocation (c : VirtualMachineConfigSpec) v :=
  {| NumCPUs := NumCPUs c; MemoryMB := MemoryMB c; CpuAllocation := CpuAllocation c;
     MemoryAllocation := v;
     MemoryReservationLockedToMax := MemoryReservationLockedToMax c |}.
Definition setMemoryReservationLockedToMax (c : VirtualMachineConfigSpec) v :=
  {| NumCPUs := NumCPUs c; MemoryMB := MemoryMB c; CpuAllocation := CpuAllocation c;
     MemoryAllocation := MemoryAllocation c;
     MemoryReservationLockedToMax := v |}.

Definition ref_eqb (a b : ManagedObjectReference) : bool :=
  String.eqb (Type_ a) (Type_ b) && String.eqb (Value a) (Value b).

End types.

(** [vim25/mo]: the property container filled by [Properties]. *)
Module mo.
Record VirtualMachine : Type := {
  Snapshot : option types.VirtualMachineSnapshotInfo
}.
End mo.

(** [object]: client-side handles.  A [VirtualMachine], [Folder],
    [ResourcePool], [Datastore] or [Task] handle is its managed object
    reference ([Reference()] is the identity); a [Datacenter] handle
    additionally knows its name.  The constructors of [Submission] are
    the six methods of [object.VirtualMachine] that start a remote task
    and hand back an [object.Task]. *)
Module object.

Definition VirtualMachine : Type := types.ManagedObjectReference.
Definition Folder         : Type := types.ManagedObjectReference.
Definition ResourcePool   : Type := types.ManagedObjectReference.
Definition Datastore      : Type := types.ManagedObjectReference.
Definition Task           : Type := types.ManagedObjectReference.

Record Datacenter : Type := { Name : string }.

Inductive Submission : Type :=
| Clone (vm : VirtualMachine) (folder : Folder) (name : string)
        (config : types.VirtualMachineCloneSpec)
| Destroy (vm : VirtualMachine)
| Reconfigure (vm : VirtualMachine) (config : types.VirtualMachineConfigSpec)
| PowerOn (vm : VirtualMachine)
| PowerOff (vm : VirtualMachine)
| CreateSnapshot (vm : VirtualMachine) (name description : string)
                 (memory quiesce : bool).

End object.

(** ** Configuration structs *)

(** Modelled from the spec: the declaration of [CloneConfig] lies
    outside driver.go.  The specification lists, as clone parameters,
    the template identifier, the destination machine name, folder, host
    and resource pool, datastore, and the linked-clone boolean; the
    field names are the ones driver.go reads. *)
Record CloneConfig : Type := {
  Template     : string;
  VMName       : string;
  Folder       : string;
  Host         : string;
  ResourcePool : string;
  Datastore    : string;
  LinkedClone  : bool
}.

(** Modelled from the spec: the declaration of [HardwareConfig] lies
    outside driver.go.  The specification lists, as hardware parameters,
    the CPU count, the RAM size in MB, the CPU reservation and limit, the
    RAM reservation and the flag that locks the RAM reservation to the
    maximum; the field names are the ones driver.go reads. *)
Record HardwareConfig : Type := {
  CPUs           : Z;
  RAM            : Z;
  CPUReservation : Z;
  CPULimit       : Z;
  RAMReservation : Z;
  RAMReserveAll  : bool
}.

(** The [Driver] struct.  Its [ctx], [client] and [finder] fields are
    the session with the endpoint, which is the [Remote] oracle below;
    what remains is the datacenter resolved at construction. *)
Record Driver : Type := { datacenter : object.Datacenter }.

(** ** Errors and results *)

(** What a remote call reports when it fails. *)
Definition Fault : Type := string.

(** A Go [error] value seen by the caller of the driver: either built
    in driver.go by [errors.New], or handed through unchanged from a
    govmomi call. *)
Inductive error : Type :=
| errors_New (text : string)
| remote (f : Fault).

(** The answer of the endpoint to one call. *)
Inductive reply (A : Type) : Type :=
| Done (a : A)
| Failed (f : Fault).
Arguments Done {A} a.
Arguments Failed {A} f.

(** The outcome of a driver method: Go's [(value, nil)], [(_, err)], or
    a run-time panic (the unchecked type assertion in [CloneVM]). *)
Inductive result (A : Type) : Type :=
| Ok (a : A)
| Err (e : error)
| Panic (msg : string).
Arguments Ok {A} a.
Arguments Err {A} e.
Arguments Panic {A} msg.

(** ** The endpoint: events, world, oracle *)

(** One entry of the log: a call made by the driver and its answer. *)
Inductive Event : Type :=
| FindVirtualMachine (path : string) (r : reply object.VirtualMachine)
| FindFolderOrDefault (path : string) (r : reply object.Folder)
| FindResourcePoolOrDefault (path : string) (r : reply object.ResourcePool)
| FindDatastore (path : string) (r : reply object.Datastore)
| Properties (obj : types.ManagedObjectReference) (ps : list string)
             (r : reply mo.VirtualMachine)
| Submit (op : object.Submission) (r : reply object.Task)
| WaitForResult (task : object.Task) (r : reply types.TaskInfo)
| PowerState (vm : object.VirtualMachine) (r : reply types.VirtualMachinePowerState)
| GuestIP (vm : object.VirtualMachine) (r : reply string)
| ShutdownGuest (vm : object.VirtualMachine) (r : reply unit)
| MarkAsTemplate (vm : object.VirtualMachine) (r : reply unit)
| Sleep (d : Z).

(** Time is counted in nanoseconds, as [time.Duration] does. *)
Record World : Type := {
  now : Z;
  log : list Event
}.

(** The endpoint answers every call as a function of the world at the
    moment of the call.  [latency] is the time a call takes (for
    [Sleep], the overshoot beyond the requested duration) and [lag] is
    how late the Go runtime delivers the tick of a timer created at
    that moment; both are natural numbers, so the clock never runs
    backwards and no timer ticks early. *)
Record Remote : Type := {
  findVirtualMachine        : World -> string -> reply object.VirtualMachine;
  findFolderOrDefault       : World -> string -> reply object.Folder;
  findResourcePoolOrDefault : World -> string -> reply object.ResourcePool;
  findDatastore             : World -> string -> reply object.Datastore;
  properties                : World -> types.ManagedObjectReference -> list string ->
                              reply mo.VirtualMachine;
  submit                    : World -> object.Submission -> reply object.Task;
  waitForResult             : World -> object.Task -> reply types.TaskInfo;
  powerState                : World -> object.VirtualMachine ->
                              reply types.VirtualMachinePowerState;
  guestIP                   : World -> object.VirtualMachine -> reply string;
  shutdownGuest             : World -> object.VirtualMachine -> reply unit;
  markAsTemplate            : World -> object.VirtualMachine -> reply unit;
  latency                   : World -> N;
  lag                       : World -> N
}.

(** ** The monad of driver methods *)

Definition M (A : Type) : Type := World -> result A * World.

Definition ret {A} (a : A) : M A := fun w => (Ok a, w).

Definition throw {A} (e : error) : M A := fun w => (Err e, w).

Definition panic {A} (msg : string) : M A := fun w => (Panic msg, w).

Definition bind {A B} (m : M A) (k : A -> M B) : M B :=
  fun w =>
    match m w with
    | (Ok a, w')      => k a w'
    | (Err e, w')     => (Err e, w')
    | (Panic msg, w') => (Panic msg, w')
    end.

Notation "x <- m ;; k" := (bind m (fun x => k))
  (at level 61, m at next level, right associativity).

(** The world after one more event that took [extra] nanoseconds on top
    of the endpoint's latency. *)
Definition advance (R : Remote) (w : World) (extra : Z) (ev : Event) : World :=
  {| now := now w + extra + Z.of_N (latency R w);
     log := log w ++ [ev] |}.

Definition lift {A} (r : reply A) : result A :=
  match r with
  | Done a   => Ok a
  | Failed f => Err (remote f)
  end.

(** A call to the endpoint: ask the oracle, log the call with its
    answer, return the answer Go-style. *)
Definition call {A} (R : Remote) (ask : World -> reply A) (ev : reply A -> Event) : M A :=
  fun w => let r := ask w in (lift r, advance R w 0 (ev r)).

(** ** driver.go *)

(** [time.Second], in nanoseconds. *)
Definition time_Second : Z := 1000000000.

(** [select { case <-timer: ... default: ... }] on a timer channel: a
    receive that does not block.  A timer channel is represented by the
    instant at which its tick is delivered; the receive succeeds
    exactly when that instant has been reached. *)
Definition ready (timer : Z) (w : World) : bool := timer <=? now w.

Section Methods.

Variable R : Remote.

(** *** The govmomi calls made by the driver *)

Definition finder_VirtualMachine (path : string) : M object.VirtualMachine :=
  call R (fun w => findVirtualMachine R w path) (FindVirtualMachine path).

Definition finder_FolderOrDefault (path : string) : M object.Folder :=
  call R (fun w => findFolderOrDefault R w path) (FindFolderOrDefault path).

Definition finder_ResourcePoolOrDefault (path : string) : M object.ResourcePool :=
  call R (fun w => findResourcePoolOrDefault R w path) (FindResourcePoolOrDefault path).

Definition finder_Datastore (path : string) : M object.Datastore :=
  call R (fun w => findDatastore R w path) (FindDatastore path).

Definition vm_Properties (obj : types.ManagedObjectReference) (ps : list string)
  : M mo.VirtualMachine :=
  call R (fun w => properties R w obj ps) (Properties obj ps).

Definition start (op : object.Submission) : M object.Task :=
  call R (fun w => submit R w op) (Submit op).

Definition task_WaitForResult (task : object.Task) : M types.TaskInfo :=
  call R (fun w => waitForResult R w task) (WaitForResult task).

Definition vm_PowerState (vm : object.VirtualMachine) : M types.VirtualMachinePowerState :=
  call R (fun w => powerState R w vm) (PowerState vm).

Definition vm_WaitForIP (vm : object.VirtualMachine) : M string :=
  call R (fun w => guestIP R w vm) (GuestIP vm).

Definition vm_ShutdownGuest (vm : object.VirtualMachine) : M unit :=
  call R (fun w => shutdownGuest R w vm) (ShutdownGuest vm).

Definition vm_MarkAsTemplate (vm : object.VirtualMachine) : M unit :=
  call R (fun w => markAsTemplate R w vm) (MarkAsTemplate vm).

(** [time.After(d)]: the tick is delivered once [d] has gone by since
    the call, or later. *)
Definition time_After (d : Z) (w : World) : Z := now w + d + Z.of_N (lag R w).

(** [time.Sleep(d)]: at least [d] goes by. *)
Definition time_Sleep (d : Z) : M unit :=
  fun w => (Ok tt, advance R w d (Sleep d)).

(** *** The methods of [Driver] *)

Definition CloneVM (d : Driver) (config : CloneConfig) : M object.VirtualMachine :=
  template <- finder_VirtualMachine (Template config) ;;
  folder <- finder_FolderOrDefault
              ("/" ++ object.Name (datacenter d) ++ "/vm/" ++ Folder config)%string ;;
  let relocateSpec := types.zeroRelocateSpec in
  pool <- (if negb (ResourcePool config =? "")%string
           then finder_ResourcePoolOrDefault
                  ("/" ++ object.Name (datacenter d) ++ "/host/" ++ Host config
                       ++ "/Resources/" ++ ResourcePool config)%string
           else finder_ResourcePoolOrDefault "") ;;
  let poolRef := pool in
  let relocateSpec := types.setPool relocateSpec (Some poolRef) in
  relocateSpec <- (if negb (Datastore config =? "")%string
                   then datastore <- finder_Datastore (Datastore config) ;;
                        let datastoreRef := datastore in
                        ret (types.setDatastore relocateSpec (Some datastoreRef))
                   else ret relocateSpec) ;;
  let cloneSpec := types.zeroCloneSpec in
  let cloneSpec := types.setLocation cloneSpec relocateSpec in
  let cloneSpec := types.setPowerOn cloneSpec false in
  cloneSpec <- (if Bool.eqb (LinkedClone config) true
                then
                  let cloneSpec :=
                    types.setLocation cloneSpec
                      (types.setDiskMoveType (types.Location cloneSpec)
                                             "createNewChildDiskBacking") in
                  tpl <- vm_Properties template ["snapshot"] ;;
                  match mo.Snapshot tpl with
                  | None =>
                      throw (errors_New "`linked_clone=true`, but template has no snapshots")
                  | Some snapshot =>
                      ret (types.setSnapshot cloneSpec (types.CurrentSnapshot snapshot))
                  end
                else ret cloneSpec) ;;
  task <- start (object.Clone template folder (VMName config) cloneSpec) ;;
  info <- task_WaitForResult task ;;
  match types.Result info with
  | types.AnyRef ref => ret ref
  | types.AnyOther _ =>
      panic "interface conversion: not types.ManagedObjectReference"
  end.

Definition DestroyVM (vm : object.VirtualMachine) : M unit :=
  task <- start (object.Destroy vm) ;;
  _ <- task_WaitForResult task ;;
  ret tt.

Definition ConfigureVM (vm : object.VirtualMachine) (config : HardwareConfig) : M unit :=
  let confSpec := types.zeroConfigSpec in
  let confSpec := types.setNumCPUs confSpec (CPUs config) in
  let confSpec := types.setMemoryMB confSpec (RAM config) in
  let cpuSpec := types.zeroResourceAllocationInfo in
  let cpuSpec := types.setReservation cpuSpec (CPUReservation config) in
  let cpuSpec := types.setLimit cpuSpec (CPULimit config) in
  let confSpec := types.setCpuAllocation confSpec (Some cpuSpec) in
  let ramSpec := types.zeroResourceAllocationInfo in
  let ramSpec := types.setReservation ramSpec (RAMReservation config) in
  let confSpec := types.setMemoryAllocation confSpec (Some ramSpec) in
  let confSpec :=
    types.setMemoryReservationLockedToMax confSpec (Some (RAMReserveAll config)) in
  task <- start (object.Reconfigure vm confSpec) ;;
  _ <- task_WaitForResult task ;;
  ret tt.

Definition PowerOn (vm : object.VirtualMachine) : M unit :=
  task <- start (object.PowerOn vm) ;;
  _ <- task_WaitForResult task ;;
  ret tt.

Definition WaitForIP (vm : object.VirtualMachine) : M string :=
  ip <- vm_WaitForIP vm ;;
  ret ip.

Definition PowerOff (vm : object.VirtualMachine) : M unit :=
  state <- vm_PowerState vm ;;
  if (state =? types.VirtualMachinePowerStatePoweredOff)%string
  then ret tt
  else
    task <- start (object.PowerOff vm) ;;
    _ <- task_WaitForResult task ;;
    ret tt.

Definition StartShutdown (vm : object.VirtualMachine) : M unit :=
  vm_ShutdownGuest vm.

(** The [for] loop of [WaitForShutdown].  [fuel] bounds the number of
    iterations; [None] means the bound was reached before the loop
    left. *)
Fixpoint poll (fuel : nat) (vm : object.VirtualMachine) (shutdownTimer : Z)
              (w : World) : option (result unit) * World :=
  match fuel with
  | O => (None, w)
  | S fuel' =>
      match vm_PowerState vm w with
      | (Err e, w1) => (Some (Err e), w1)
      | (Panic msg, w1) => (Some (Panic msg), w1)
      | (Ok powerState, w1) =>
          if (powerState =? "poweredOff")%string
          then (Some (Ok tt), w1)
          else if ready shutdownTimer w1
               then (Some (Err (errors_New
                                  "Timeout while waiting for machine to shut down.")), w1)
               else poll fuel' vm shutdownTimer (snd (time_Sleep (1 * time_Second) w1))
      end
  end.

Definition WaitForShutdown (fuel : nat) (vm : object.VirtualMachine) (timeout : Z)
                           (w : World) : option (result unit) * World :=
  let shutdownTimer := time_After timeout w in
  poll fuel vm shutdownTimer w.

Definition CreateSnapshot (vm : object.VirtualMachine) : M unit :=
  task <- start (object.CreateSnapshot vm "Created by Packer" "" false false) ;;
  _ <- task_WaitForResult task ;;
  ret tt.

Definition ConvertToTemplate (vm : object.VirtualMachine) : M unit :=
  vm_MarkAsTemplate vm.

End Methods.

(** ** Reading the log *)

(** [emits m w evs]: run from world [w], the computation [m] made
    exactly the calls [evs], in this order. *)
Definition emits {A} (m : World -> A * World) (w : World) (evs : list Event) : Prop :=
  log (snd (m w)) = log w ++ evs.

(** [m] only ever adds to the log. *)
Definition grows {A} (m : World -> A * World) : Prop :=
  forall w, exists evs, emits m w evs.

(** The task submissions among a list of events. *)
Definition isSubmit (ev : Event) : bool :=
  match ev with
  | Submit _ _ => true
  | _ => false
  end.

Definition submissions (evs : list Event) : list Event := filter isSubmit evs.

(** The calls made by [m] when run from [w], computed from the final
    log. *)
Definition trace {A} (m : World -> A * World) (w : World) : list Event :=
  skipn (List.length (log w)) (log (snd (m w))).

(** Every task that was started is waited for at once: a successful
    [Submit] is directly followed by [WaitForResult] on the task it
    returned. *)
Fixpoint awaited (evs : list Event) : bool :=
  match evs with
  | [] => true
  | Submit _ (Done task) :: rest =>
      match rest with
      | WaitForResult task' _ :: rest' => types.ref_eqb task task' && awaited rest'
      | _ => false
      end
  | _ :: rest => awaited rest
  end.

(** A run is settled when every task it started was waited for at once
    and a failed wait is what the method returned. *)
Definition settled {A} (m : M A) (w : World) (evs : list Event) : Prop :=
  awaited evs = true
  /\ forall task f, In (WaitForResult task (Failed f)) evs -> fst (m w) = Err (remote f).

(** The world right after the power-state query made in [w], and the
    world after the one-second sleep that follows it. *)
Definition asked (R : Remote) (vm : object.VirtualMachine) (w : World) : World :=
  advance R w 0 (PowerState vm (powerState R w vm)).

Definition slept (R : Remote) (vm : object.VirtualMachine) (w : World) : World :=
  advance R (asked R vm w) (1 * time_Second) (Sleep (1 * time_Second)).

(** Complete rounds of the shutdown loop: the machine is asked for its
    power state, answers something other than powered off, and the
    driver sleeps one second. *)
Fixpoint rounds (vm : object.VirtualMachine) (evs : list Event) : bool :=
  match evs with
  | [] => true
  | PowerState vm' (Done s) :: Sleep d :: rest =>
      types.ref_eqb vm vm' && negb (s =? "poweredOff")%string
      && (d =? 1 * time_Second) && rounds vm rest
  | _ => false
  end.

Definition isFindResourcePool (ev : Event) : bool :=
  match ev with
  | FindResourcePoolOrDefault _ _ => true
  | _ => false
  end.


(** ** A laboratory endpoint

    A small deterministic endpoint used to run the methods on concrete
    inputs: every inventory path resolves, the template has the given
    snapshot metadata, tasks succeed unless [taskFault] says otherwise,
    and the power state is a function of the clock. *)

Definition ref (ty v : string) : types.ManagedObjectReference :=
  {| types.Type_ := ty; types.Value := v |}.

Definition lab (snapshot : option types.VirtualMachineSnapshotInfo)
               (power : Z -> reply types.VirtualMachinePowerState)
               (taskFault : option Fault) : Remote :=
  {| findVirtualMachine        := fun _ path => Done (ref "VirtualMachine" path);
     findFolderOrDefault       := fun _ path => Done (ref "Folder" path);
     findResourcePoolOrDefault := fun _ path => Done (ref "ResourcePool" path);
     findDatastore             := fun _ path => Done (ref "Datastore" path);
     properties                := fun _ _ _ => Done {| mo.Snapshot := snapshot |};
     submit                    := fun _ _ => Done (ref "Task" "task-1");
     waitForResult             := fun _ _ =>
                                    match taskFault with
                                    | None => Done {| types.Result :=
                                                        types.AnyRef (ref "VirtualMachine" "vm-42") |}
                                    | Some f => Failed f
                                    end;
     powerState                := fun w _ => power (now w);
     guestIP                   := fun _ _ => Done "10.0.0.7";
     shutdownGuest             := fun _ _ => Done tt;
     markAsTemplate            := fun _ _ => Done tt;
     latency                   := fun _ => 0%N;
     lag                       := fun _ => 0%N |}.

Definition dawn : World := {| now := 0; log := [] |}.

Definition dc1 : Driver := {| datacenter := {| object.Name := "dc1" |} |}.

Definition S1 : types.ManagedObjectReference := ref "VirtualMachineSnapshot" "snapshot-1".
Definition S2 : types.ManagedObjectReference := ref "VirtualMachineSnapshot" "snapshot-2".

(** The snapshot chain S1 -> S2, with S2 current. *)
Definition chain : types.VirtualMachineSnapshotInfo :=
  {| types.CurrentSnapshot := Some S2;
     types.RootSnapshotList :=
       [types.SnapshotTree S1 "S1" [types.SnapshotTree S2 "S2" []]] |}.

Definition linkedConfig : CloneConfig :=
  {| Template := "tpl1"; VMName := "vm1"; Folder := ""; Host := "esx1";
     ResourcePool := "pool1"; Datastore := "ds1"; LinkedClone := true |}.

Definition plainConfig : CloneConfig :=
  {| Template := "tpl1"; VMName := "vm1"; Folder := ""; Host := "";
     ResourcePool := ""; Datastore := ""; LinkedClone := false |}.

Definition hardware : HardwareConfig :=
  {| CPUs := 2; RAM := 4096; CPUReservation := 1000; CPULimit := 2000;
     RAMReservation := 1024; RAMReserveAll := true |}.

Definition alwaysOn : Z -> reply types.VirtualMachinePowerState :=
  fun _ => Done "poweredOn".

Definition alwaysOff : Z -> reply types.VirtualMachinePowerState :=
  fun _ => Done "poweredOff".

(** The machine goes down [t] nanoseconds after dawn. *)
Definition offAfter (t : Z) : Z -> reply types.VirtualMachinePowerState :=
  fun clock => if clock <? t then Done "poweredOn" else Done "poweredOff".

(** The endpoint stops answering [t] nanoseconds after dawn. *)
Definition lostAfter (t : Z) : Z -> reply types.VirtualMachinePowerState :=
  fun clock => if clock <? t then Done "poweredOn" else Failed "connection reset".

Definition vm1 : object.VirtualMachine := ref "VirtualMachine" "vm-42".

(** The endpoints and the configuration of the examples. *)
Definition bare : Remote := lab None alwaysOn None.
Definition snapshotted : Remote := lab (Some chain) alwaysOn None.
Definition locked : Remote := lab None alwaysOn (Some "disk is locked").
Definition lost : Remote := lab None (lostAfter 1) None.
Definition halted : Remote := lab None alwaysOff None.

Definition noSnapConfig : CloneConfig :=
  {| Template := "base-no-snap"; VMName := "vm1"; Folder := ""; Host := "";
     ResourcePool := ""; Datastore := ""; LinkedClone := true |}.

Definition plainSpec : types.VirtualMachineCloneSpec :=
  {| types.Location := {| types.Datastore := None;
                          types.DiskMoveType := "";
                          types.Pool := Some (ref "ResourcePool" "") |};
     types.PowerOn := false;
     types.Snapshot := None |}.

(** ** Further readings of the log *)

Definition fault {A} (r : reply A) : option Fault :=
  match r with
  | Done _ => None
  | Failed f => Some f
  end.

(** The failure reported by a call, if it failed. *)
Definition faultOf (ev : Event) : option Fault :=
  match ev with
  | FindVirtualMachine _ r => fault r
  | FindFolderOrDefault _ r => fault r
  | FindResourcePoolOrDefault _ r => fault r
  | FindDatastore _ r => fault r
  | Properties _ _ r => fault r
  | Submit _ r => fault r
  | WaitForResult _ r => fault r
  | PowerState _ r => fault r
  | GuestIP _ r => fault r
  | ShutdownGuest _ r => fault r
  | MarkAsTemplate _ r => fault r
  | Sleep _ => None
  end.

(** The inventory lookups of [CloneVM]. *)
Definition isLookup (ev : Event) : bool :=
  match ev with
  | FindVirtualMachine _ _ => true
  | FindFolderOrDefault _ _ => true
  | FindResourcePoolOrDefault _ _ => true
  | FindDatastore _ _ => true
  | _ => false
  end.

(** A method fails fast: a call that failed is the last call of the
    run, and its failure is what the method returns. *)
Definition fails_fast {A} (m : M A) : Prop :=
  forall w evs ev f,
    emits m w evs -> In ev evs -> faultOf ev = Some f ->
    fst (m w) = Err (remote f) /\ exists before, evs = before ++ [ev].

(** The place of each kind of call in the text of [CloneVM]. *)
Definition rank (ev : Event) : nat :=
  match ev with
  | FindVirtualMachine _ _ => 0
  | FindFolderOrDefault _ _ => 1
  | FindResourcePoolOrDefault _ _ => 2
  | FindDatastore _ _ => 3
  | Properties _ _ _ => 4
  | Submit _ _ => 5
  | WaitForResult _ _ => 6
  | _ => 7
  end.

Fixpoint ascending (l : list nat) : bool :=
  match l with
  | a :: (b :: _) as rest => (a <? b)%nat && ascending rest
  | _ => true
  end.

Definition isFindDatastore (ev : Event) : bool :=
  match ev with
  | FindDatastore _ _ => true
  | _ => false
  end.

Definition isProperties (ev : Event) : bool :=
  match ev with
  | Properties _ _ _ => true
  | _ => false
  end.

Definition isSleep (ev : Event) : bool :=
  match ev with
  | Sleep _ => true
  | _ => false
  end.

(** The number of sleeps, that is, of completed rounds of the shutdown
    loop. *)
Definition sleeps (evs : list Event) : nat := List.length (filter isSleep evs).

(** [m] starts by submitting [op], submits nothing else, and succeeds
    exactly when the submission was accepted and the wait for its task
    succeeded. *)
Definition runs_one_task (m : M unit) (op : object.Submission) : Prop :=
  forall w,
    exists r after,
      emits m w (Submit op r :: after)
      /\ submissions after = []
      /\ (fst (m w) = Ok tt
          <-> exists task info, r = Done task /\ after = [WaitForResult task (Done info)]).

(** ** NewDriver

    [NewDriver] runs before there is a session, so it is modelled
    against the three facilities it uses rather than against [Remote]:
    the URL parser of the Go library, the dialer of govmomi, and the
    datacenter lookup of a fresh finder. *)

(** [net/url]: a parsed URL, with the one field [NewDriver] assigns. *)
Module url.

Record Userinfo : Type := { username : string; password : string }.

Definition UserPassword (u p : string) : Userinfo :=
  {| username := u; password := p |}.

Record URL : Type := {
  Text : string;
  User : option Userinfo
}.

Definition setUser (u : URL) (v : option Userinfo) : URL :=
  {| Text := Text u; User := v |}.

End url.

(** Modelled from the spec: the declaration of [ConnectConfig] lies
    outside driver.go.  The specification lists, as connection
    parameters, the endpoint host, the credentials, the optional
    datacenter name and the flag to skip certificate validation; the
    field names are the ones driver.go reads. *)
Record ConnectConfig : Type := {
  VCenterServer      : string;
  Username           : string;
  Password           : string;
  InsecureConnection : bool;
  Datacenter         : string
}.

(** A [govmomi.Client], known by its session. *)
Definition Client : Type := string.

Record Dialer : Type := {
  url_Parse                  : string -> reply url.URL;
  govmomi_NewClient          : url.URL -> bool -> reply Client;
  finder_DatacenterOrDefault : Client -> string -> reply object.Datacenter
}.

(** The steps of session set-up, with their answers. *)
Inductive Setup : Type :=
| Parse (rawurl : string) (r : reply url.URL)
| NewClient (u : url.URL) (insecure : bool) (r : reply Client)
| DatacenterOrDefault (c : Client) (path : string) (r : reply object.Datacenter)
| SetDatacenter (c : Client) (dc : object.Datacenter).

(** What [NewDriver] hands back: the [Driver] together with the client
    that its [client] and [finder] fields are built on. *)
Record Session : Type := {
  client : Client;
  driver : Driver
}.

Definition NewDriver (D : Dialer) (config : ConnectConfig) : result Session * list Setup :=
  let rawurl := ("https://" ++ VCenterServer config ++ "/sdk")%string in
  match url_Parse D rawurl with
  | Failed f => (Err (remote f), [Parse rawurl (Failed f)])
  | Done parsed =>
      let vcenter_url :=
        url.setUser parsed (Some (url.UserPassword (Username config) (Password config))) in
      match govmomi_NewClient D vcenter_url (InsecureConnection config) with
      | Failed f =>
          (Err (remote f),
           [Parse rawurl (Done parsed);
            NewClient vcenter_url (InsecureConnection config) (Failed f)])
      | Done c =>
          match finder_DatacenterOrDefault D c (Datacenter config) with
          | Failed f =>
              (Err (remote f),
               [Parse rawurl (Done parsed);
                NewClient vcenter_url (InsecureConnection config) (Done c);
                DatacenterOrDefault c (Datacenter config) (Failed f)])
          | Done dc =>
              (Ok {| client := c; driver := {| datacenter := dc |} |},
               [Parse rawurl (Done parsed);
                NewClient vcenter_url (InsecureConnection config) (Done c);
                DatacenterOrDefault c (Datacenter config) (Done dc);
                SetDatacenter c dc])
          end
      end
  end.

Definition setupFault (step : Setup) : option Fault :=
  match step with
  | Parse _ r => fault r
  | NewClient _ _ r => fault r
  | DatacenterOrDefault _ _ r => fault r
  | SetDatacenter _ _ => None
  end.

Definition isSetDatacenter (step : Setup) : bool :=
  match step with
  | SetDatacenter _ _ => true
  | _ => false
  end.

(** ** More laboratory endpoints *)

(** An endpoint that does not answer power-state queries at all. *)
Definition down : Remote := lab None (lostAfter 0) None.

(** An endpoint whose tasks complete with a result that is not a
    managed object reference. *)
Definition odd : Remote :=
  {| findVirtualMachine        := findVirtualMachine bare;
     findFolderOrDefault       := findFolderOrDefault bare;
     findResourcePoolOrDefault := findResourcePoolOrDefault bare;
     findDatastore             := findDatastore bare;
     properties                := properties bare;
     submit                    := submit bare;
     waitForResult             := fun _ _ =>
                                    Done {| types.Result := types.AnyOther "nil" |};
     powerState                := powerState bare;
     guestIP                   := guestIP bare;
     shutdownGuest             := shutdownGuest bare;
     markAsTemplate            := markAsTemplate bare;
     latency                   := latency bare;
     lag                       := lag bare |}.

(** An endpoint without the datastore that is asked for. *)
Definition diskless : Remote :=
  {| findVirtualMachine        := findVirtualMachine bare;
     findFolderOrDefault       := findFolderOrDefault bare;
     findResourcePoolOrDefault := findResourcePoolOrDefault bare;
     findDatastore             := fun _ _ => Failed "datastore not found";
     properties                := properties bare;
     submit                    := submit bare;
     waitForResult             := waitForResult bare;
     powerState                := powerState bare;
     guestIP                   := guestIP bare;
     shutdownGuest             := shutdownGuest bare;
     markAsTemplate            := markAsTemplate bare;
     latency                   := latency bare;
     lag                       := lag bare |}.

(** The clone specification that [linkedConfig] leads to on the
    endpoint [snapshotted]. *)
Definition linkedSpec : types.VirtualMachineCloneSpec :=
  {| types.Location :=
       {| types.Datastore := Some (ref "Datastore" "ds1");
          types.DiskMoveType := "createNewChildDiskBacking";
          types.Pool := Some (ref "ResourcePool" "/dc1/host/esx1/Resources/pool1") |};
     types.PowerOn := false;
     types.Snapshot := Some S2 |}.

(** A vCenter at "vc.lab" with the one datacenter "dc1"; any other
    datacenter name is not found. *)
Definition office : Dialer :=
  {| url_Parse := fun raw => Done {| url.Text := raw; url.User := None |};
     govmomi_NewClient := fun _ _ => Done "session-1"%string;
     finder_DatacenterOrDefault :=
       fun _ path =>
         if ((path =? "")%string || (path =? "dc1")%string)%bool
         then Done {| object.Name := "dc1" |}
         else Failed "datacenter not found" |}.

Definition admin : ConnectConfig :=
  {| VCenterServer := "vc.lab"; Username := "root"; Password := "secret";
     InsecureConnection := true; Datacenter := "" |}.

Definition astray : ConnectConfig :=
  {| VCenterServer := "vc.lab"; Username := "root"; Password := "secret";
     InsecureConnection := true; Datacenter := "dc9" |}.

(** ** Basic facts *)

Lemma ref_eqb_refl (a : types.ManagedObjectReference) : types.ref_eqb a a = true.
Proof.
  unfold types.ref_eqb. now rewrite !String.eqb_refl.
Qed.

(** Runs only ever add to the log, so the calls of a run are well
    defined; [trace] computes them. *)

Lemma emits_unique {A} (m : World -> A * World) (w : World) (evs evs' : list Event) :
  emits m w evs -> emits m w evs' -> evs = evs'.
Proof.
  unfold emits. intros H H'. rewrite H in H'. now apply app_inv_head in H'.
Qed.

Lemma emits_trace {A} (m : World -> A * World) (w : World) :
  grows m -> emits m w (trace m w).
Proof.
  intros Hgrows. destruct (Hgrows w) as [evs Hevs].
  unfold trace. rewrite Hevs.
  rewrite skipn_app, skipn_all, Nat.sub_diag. exact Hevs.
Qed.

Lemma grows_ret {A} (a : A) : grows (ret a).
Proof.
  intros w. exists []. unfold emits, ret. cbn. now rewrite app_nil_r.
Qed.

Lemma grows_throw {A} (e : error) : grows (@throw A e).
Proof.
  intros w. exists []. unfold emits, throw. cbn. now rewrite app_nil_r.
Qed.

Lemma grows_panic {A} (msg : string) : grows (@panic A msg).
Proof.
  intros w. exists []. unfold emits, panic. cbn. now rewrite app_nil_r.
Qed.

Lemma grows_call {A} (R : Remote) (ask : World -> reply A) (ev : reply A -> Event) :
  grows (call R ask ev).
Proof.
  intros w. exists [ev (ask w)]. reflexivity.
Qed.

Lemma grows_bind {A B} (m : M A) (k : A -> M B) :
  grows m -> (forall a, grows (k a)) -> grows (bind m k).
Proof.
  intros Hm Hk w. destruct (Hm w) as [evs Hevs].
  unfold emits, bind in *. destruct (m w) as [[a | e | msg] w1]; cbn [snd] in *.
  - destruct (Hk a w1) as [evs' Hevs']. unfold emits in Hevs'.
    exists (evs ++ evs'). now rewrite Hevs', Hevs, app_assoc.
  - now exists evs.
  - now exists evs.
Qed.

Create HintDb grows.
#[local] Hint Resolve grows_ret grows_throw grows_panic grows_call : grows.

(** Decompose a method along its binds and tests. *)
Ltac grow :=
  repeat first
    [ solve [auto with grows]
    | apply grows_bind; [ | intros ? ]
    | match goal with
      | |- grows (if ?c then _ else _) => destruct c
      | |- grows (match ?x with _ => _ end) => destruct x
      end ].

Lemma methods_grow (R : Remote) :
  (forall d config, grows (CloneVM R d config))
  /\ (forall vm, grows (DestroyVM R vm))
  /\ (forall vm config, grows (ConfigureVM R vm config))
  /\ (forall vm, grows (PowerOn R vm))
  /\ (forall vm, grows (WaitForIP R vm))
  /\ (forall vm, grows (PowerOff R vm))
  /\ (forall vm, grows (StartShutdown R vm))
  /\ (forall vm, grows (CreateSnapshot R vm))
  /\ (forall vm, grows (ConvertToTemplate R vm)).
Proof.
  repeat split; intros;
    unfold CloneVM, DestroyVM, ConfigureVM, PowerOn, WaitForIP, PowerOff, StartShutdown,
           CreateSnapshot, ConvertToTemplate,
           finder_VirtualMachine, finder_FolderOrDefault, finder_ResourcePoolOrDefault,
           finder_Datastore, vm_Properties, start, task_WaitForResult, vm_PowerState,
           vm_WaitForIP, vm_ShutdownGuest, vm_MarkAsTemplate;
    grow.
Qed.

(** ** Symbolic execution of a method

    The methods are straight-line code, so a statement about a run is
    proved by running the method against an arbitrary endpoint: each
    call, in program order, is split into its possible answers. *)

Ltac unfold_driver :=
  unfold CloneVM, DestroyVM, ConfigureVM, PowerOn, PowerOff, CreateSnapshot,
         WaitForIP, StartShutdown, ConvertToTemplate,
         finder_VirtualMachine, finder_FolderOrDefault, finder_ResourcePoolOrDefault,
         finder_Datastore, vm_Properties, start, task_WaitForResult, vm_PowerState,
         vm_WaitForIP, vm_ShutdownGuest, vm_MarkAsTemplate,
         bind, ret, throw, panic, emits.

(** Open up what a reply carries when the method goes on to inspect it. *)
Ltac open_reply a :=
  lazymatch type of a with
  | mo.VirtualMachine => destruct a as [[?snapshot | ]]
  | types.TaskInfo => destruct a as [[?ref | ?descr]]
  | _ => idtac
  end.

(** Run the next call of the method: the outermost [call] in the goal
    is the only one applied to a world that is already known. *)
Ltac step :=
  lazymatch goal with
  | |- context [call ?R ?ask ?ev ?w] =>
      change (call R ask ev w) with (lift (ask w), advance R w 0 (ev (ask w)));
      cbv beta;
      lazymatch goal with
      | |- context [lift ?x] =>
          let a := fresh "a" in
          let f := fresh "f" in
          destruct x as [a | f]; [open_reply a | ];
          cbn [lift fst snd mo.Snapshot types.Result]
      end
  end.

(** Settle the tests on the configuration first, then run the calls. *)
Ltac run :=
  unfold_driver;
  repeat match goal with
         | H : LinkedClone _ = _ |- _ => rewrite H
         | |- context [String.eqb ?a EmptyString] =>
             let E := fresh "E" in destruct (String.eqb a EmptyString) eqn:E
         | |- context [Bool.eqb (LinkedClone ?c) true] => destruct (LinkedClone c)
         end;
  cbn [negb Bool.eqb];
  repeat step;
  cbn [fst snd advance log now].

(** Bring [log w ++ evs = log w ++ evs'] to [evs = evs']. *)
Ltac strip_log H :=
  repeat rewrite <- app_assoc in H;
  first [ apply app_inv_head in H
        | match type of H with
          | ?l = ?l ++ _ => rewrite <- (app_nil_r l) in H at 1; apply app_inv_head in H
          end ];
  cbn [app] in H.

(** Solve or refute the membership of an event in an explicit list. *)
Ltac pick_event H :=
  cbn [In] in H;
  repeat (destruct H as [H | H]; [try discriminate H | ]);
  try contradiction.

(** ** CloneVM *)

(** When the test of the method on the answers so far has settled the
    run, these close what is left. *)

(** The last event of an explicit log. *)
Ltac last_event l := eval cbn [last] in (last l (Sleep 0)).

(** A run that stopped at a failed lookup contradicts [Hlook], which
    says that no lookup of the run failed. *)
Ltac lookup_failed Hlook :=
  match type of Hlook with
  | forall ev, In ev ?l -> _ =>
      let e := last_event l in
      exfalso;
      assert (Hnone : faultOf e = None)
        by (apply Hlook;
            [cbn [In]; repeat (first [left; reflexivity | right]) | reflexivity]);
      discriminate Hnone
  end.

(** A run whose fetch found a snapshot contradicts [Habsent], which
    says that every fetch of the run found none. *)
Ltac snapshot_found Habsent :=
  match type of Habsent with
  | context [Properties ?t ?p (Done {| mo.Snapshot := Some ?s |}) :: _] =>
      let Hno := fresh "Hno" in
      assert (Hno : mo.Snapshot {| mo.Snapshot := Some s |} = None)
        by (apply (Habsent t p);
            cbn [In]; repeat (first [left; reflexivity | right]));
      discriminate Hno
  end.

Ltac find_event := cbn [In removelast]; repeat (first [left; reflexivity | right]).

(** C1. Take a run of [CloneVM] with linked clone requested in which no
    fetch of snapshot metadata found a snapshot.  That run submits no
    task and returns an error.  If none of its inventory lookups failed,
    its last call is the fetch of the "snapshot" property of the
    template it resolved: the fetch is made.  And whenever that fetch
    succeeded (the metadata being absent), the error returned is
    "`linked_clone=true`, but template has no snapshots" and the fetch
    is the last call. *)
Theorem CloneVM_linked_without_snapshot
    (R : Remote) (d : Driver) (config : CloneConfig) (w : World) (evs : list Event) :
  LinkedClone config = true ->
  emits (CloneVM R d config) w evs ->
  (forall template ps tpl,
      In (Properties template ps (Done tpl)) evs -> mo.Snapshot tpl = None) ->
  submissions evs = []
  /\ (exists e, fst (CloneVM R d config w) = Err e)
  /\ ((forall ev, In ev evs -> isLookup ev = true -> faultOf ev = None) ->
      exists before template r,
        evs = before ++ [Properties template ["snapshot"] r]
        /\ In (FindVirtualMachine (Template config) (Done template)) before)
  /\ (forall template ps tpl,
        In (Properties template ps (Done tpl)) evs ->
        fst (CloneVM R d config w)
          = Err (errors_New "`linked_clone=true`, but template has no snapshots")
        /\ exists before, evs = before ++ [Properties template ["snapshot"] (Done tpl)]).
Proof.
  intros Hlinked Hruns Habsent. revert Hruns Habsent. run.
  all: intros Hruns Habsent; strip_log Hruns; subst evs.
  all: try snapshot_found Habsent.
  all: (split; [reflexivity | ]); (split; [eexists; reflexivity | ]); split.
  all: try (intros Hlook; first [ lookup_failed Hlook | idtac ];
            match goal with
            | |- exists before template r, ?l = _ /\ _ =>
                exists (removelast l); do 2 eexists; split; [reflexivity | find_event]
            end).
  all: intros template ps tpl Hin; pick_event Hin.
  all: inversion Hin; subst; clear Hin.
  all: (split; [reflexivity | ]).
  all: match goal with |- exists before, ?l = _ => exists (removelast l); reflexivity end.
Qed.

(** C3. Take a run of [CloneVM] with linked clone requested.  Every
    task it submits comes directly after a successful fetch of the
    "snapshot" property of the template it resolved, the metadata
    fetched holds a snapshot, and the task is a clone of that template
    whose specification has the disk-move policy
    "createNewChildDiskBacking" and, as base snapshot, the current
    snapshot named by the metadata.  If none of the inventory lookups of
    the run failed, that fetch is made.  And whenever the metadata
    fetched holds a snapshot, the very next call is that clone
    submission, the only task of the run. *)
Theorem CloneVM_linked_uses_current_snapshot
    (R : Remote) (d : Driver) (config : CloneConfig) (w : World) (evs : list Event) :
  LinkedClone config = true ->
  emits (CloneVM R d config) w evs ->
  (forall op t,
      In (Submit op t) evs ->
      exists before template tpl snapshot folder spec after,
        evs = before ++ Properties template ["snapshot"] (Done tpl) :: Submit op t :: after
        /\ In (FindVirtualMachine (Template config) (Done template)) before
        /\ mo.Snapshot tpl = Some snapshot
        /\ op = object.Clone template folder (VMName config) spec
        /\ types.DiskMoveType (types.Location spec) = "createNewChildDiskBacking"%string
        /\ types.Snapshot spec = types.CurrentSnapshot snapshot)
  /\ ((forall ev, In ev evs -> isLookup ev = true -> faultOf ev = None) ->
      exists template r,
        In (FindVirtualMachine (Template config) (Done template)) evs
        /\ In (Properties template ["snapshot"] r) evs)
  /\ (forall template ps tpl snapshot,
        In (Properties template ps (Done tpl)) evs ->
        mo.Snapshot tpl = Some snapshot ->
        exists before folder spec r after,
          evs = before ++ Properties template ["snapshot"] (Done tpl)
                       :: Submit (object.Clone template folder (VMName config) spec) r
                       :: after
          /\ submissions before = [] /\ submissions after = []
          /\ types.DiskMoveType (types.Location spec) = "createNewChildDiskBacking"%string
          /\ types.Snapshot spec = types.CurrentSnapshot snapshot).
Proof.
  intros Hlinked Hruns. revert Hruns. run.
  all: intros Hruns; strip_log Hruns; subst evs.
  all: split; [ | split ].
  (* what a submission carries *)
  all: try (intros op t Hin; pick_event Hin; injection Hin as <- <-;
            first [ refine (ex_intro _ [_; _; _] _); do 6 eexists;
                    (split; [reflexivity | ])
                  | refine (ex_intro _ [_; _; _; _] _); do 6 eexists;
                    (split; [reflexivity | ]) ];
            (split; [find_event | ]); repeat split; reflexivity).
  (* the fetch is made *)
  all: try (intros Hlook; first [ lookup_failed Hlook | idtac ];
            do 2 eexists; split; find_event).
  (* what follows a fetch that found a snapshot *)
  all: intros template ps tpl snapshot' Hin Hpresent; pick_event Hin.
  all: inversion Hin; subst; clear Hin; try discriminate Hpresent.
  all: injection Hpresent as <-.
  all: first [ refine (ex_intro _ [_; _; _] _); do 4 eexists; (split; [reflexivity | ])
             | refine (ex_intro _ [_; _; _; _] _); do 4 eexists; (split; [reflexivity | ]) ].
  all: repeat split; reflexivity.
Qed.


(** C6. Every task that [CloneVM] submits is a clone under the
    configured name whose specification has power-on disabled, whatever
    the configuration says. *)
Theorem CloneVM_power_on_disabled
    (R : Remote) (d : Driver) (config : CloneConfig) (w : World) (evs : list Event)
    (op : object.Submission) (r : reply object.Task) :
  emits (CloneVM R d config) w evs ->
  In (Submit op r) evs ->
  exists template folder spec,
    op = object.Clone template folder (VMName config) spec
    /\ types.PowerOn spec = false.
Proof.
  intros Hruns Hin. revert Hruns Hin. run.
  all: intros Hruns Hin; strip_log Hruns; subst evs; pick_event Hin.
  all: injection Hin as <- <-; do 3 eexists; split; reflexivity.
Qed.

(** ** Lifecycle operations *)

Ltac settle :=
  let Hruns := fresh "Hruns" in
  let Hin := fresh "Hin" in
  unfold settled; intros ? ? Hruns; revert Hruns; run;
  intros Hruns; strip_log Hruns; subst;
  (split; [cbn [awaited]; rewrite ?ref_eqb_refl; reflexivity | ]);
  intros ? ? Hin; pick_event Hin; injection Hin as <- <-; reflexivity.

(** C7. In every run of [CloneVM], [DestroyVM], [ConfigureVM],
    [PowerOn], [PowerOff] and [CreateSnapshot], each task that was
    successfully submitted is directly followed, within the same run, by
    the wait for its result, and when that wait reports a failure the
    method returns it: no method returns with a task it started still
    unawaited. *)
Theorem tasks_are_awaited (R : Remote) :
  (forall d config w evs,
      emits (CloneVM R d config) w evs -> settled (CloneVM R d config) w evs)
  /\ (forall vm w evs,
      emits (DestroyVM R vm) w evs -> settled (DestroyVM R vm) w evs)
  /\ (forall vm config w evs,
      emits (ConfigureVM R vm config) w evs -> settled (ConfigureVM R vm config) w evs)
  /\ (forall vm w evs,
      emits (PowerOn R vm) w evs -> settled (PowerOn R vm) w evs)
  /\ (forall vm w evs,
      emits (PowerOff R vm) w evs -> settled (PowerOff R vm) w evs)
  /\ (forall vm w evs,
      emits (CreateSnapshot R vm) w evs -> settled (CreateSnapshot R vm) w evs).
Proof.
  refine (conj _ (conj _ (conj _ (conj _ (conj _ _))))).
  - intros d config; settle.
  - intros vm; settle.
  - intros vm config; settle.
  - intros vm; settle.
  - intros vm w evs Hruns. unfold settled. revert Hruns. run.
    all: try match goal with
             | |- context [String.eqb ?a ?b] => destruct (String.eqb a b); run
             end.
    all: intros Hruns; strip_log Hruns; subst.
    all: (split; [cbn [awaited]; rewrite ?ref_eqb_refl; reflexivity | ]).
    all: intros ? ? Hin; pick_event Hin; injection Hin as <- <-; reflexivity.
  - intros vm; settle.
Qed.

(** C4. When the power-state query answers "poweredOff", [PowerOff]
    returns success and its run, the query alone, has submitted nothing.
    When the query answers any other state, the run submits exactly one
    task, a power-off of that machine; if the endpoint accepted it, the
    wait for its result is the next and last call, and [PowerOff]
    returns success or the reported failure according to that wait. *)
Theorem PowerOff_submissions
    (R : Remote) (vm : object.VirtualMachine) (w : World)
    (state : types.VirtualMachinePowerState) :
  powerState R w vm = Done state ->
  exists evs,
    emits (PowerOff R vm) w evs
    /\ (state = "poweredOff"%string ->
        fst (PowerOff R vm w) = Ok tt
        /\ evs = [PowerState vm (Done state)]
        /\ submissions evs = [])
    /\ (state <> "poweredOff"%string ->
        exists r,
          submissions evs = [Submit (object.PowerOff vm) r]
          /\ awaited evs = true
          /\ match r with
             | Done task =>
                 exists outcome,
                   evs = [PowerState vm (Done state); Submit (object.PowerOff vm) r;
                          WaitForResult task outcome]
                   /\ fst (PowerOff R vm w)
                      = match outcome with
                        | Done _ => Ok tt
                        | Failed f => Err (remote f)
                        end
             | Failed f =>
                 evs = [PowerState vm (Done state); Submit (object.PowerOff vm) r]
                 /\ fst (PowerOff R vm w) = Err (remote f)
             end).
Proof.
  intros Hstate. unfold_driver.
  change (call R ?ask ?ev w) with (lift (ask w), advance R w 0 (ev (ask w))).
  cbv beta. rewrite Hstate. cbn [lift].
  unfold types.VirtualMachinePowerStatePoweredOff.
  destruct (state =? "poweredOff")%string eqn:Eoff.
  - apply String.eqb_eq in Eoff. eexists. cbn [fst snd advance log now].
    split; [reflexivity | ]. split; [ | congruence ].
    intros _. repeat split; reflexivity.
  - apply String.eqb_neq in Eoff. run.
    all: eexists; (split; [rewrite <- ?app_assoc; reflexivity | ]).
    all: (split; [congruence | ]); intros _; eexists.
    all: (split; [reflexivity | ]).
    all: (split; [cbn [awaited app]; rewrite ?ref_eqb_refl; reflexivity | ]).
    all: cbn beta iota; try (eexists; split; reflexivity); split; reflexivity.
Qed.

(** C8. [ConfigureVM] starts its run by submitting one reconfiguration
    of the machine and submits nothing else; the specification of that
    single request carries the CPU count, the RAM size in MB, the CPU
    reservation, the CPU limit, the RAM reservation and the
    lock-RAM-reservation-to-max flag of the hardware configuration. *)
Theorem ConfigureVM_single_request
    (R : Remote) (vm : object.VirtualMachine) (config : HardwareConfig) (w : World) :
  exists spec r after,
    emits (ConfigureVM R vm config) w (Submit (object.Reconfigure vm spec) r :: after)
    /\ submissions after = []
    /\ types.NumCPUs spec = CPUs config
    /\ types.MemoryMB spec = RAM config
    /\ option_map types.Reservation (types.CpuAllocation spec) = Some (CPUReservation config)
    /\ option_map types.Limit (types.CpuAllocation spec) = Some (CPULimit config)
    /\ option_map types.Reservation (types.MemoryAllocation spec)
       = Some (RAMReservation config)
    /\ types.MemoryReservationLockedToMax spec = Some (RAMReserveAll config).
Proof.
  run.
  all: do 3 eexists; (split; [rewrite <- ?app_assoc; reflexivity | ]).
  all: repeat split; reflexivity.
Qed.

(** ** WaitForShutdown *)

Section Shutdown.

Variable R : Remote.
Variable vm : object.VirtualMachine.
Variable timer : Z.

(** The four ways through one iteration of the loop. *)

Lemma poll_failed (fuel : nat) (w : World) (f : Fault) :
  powerState R w vm = Failed f ->
  poll R (S fuel) vm timer w = (Some (Err (remote f)), asked R vm w).
Proof.
  intros Hanswer. cbn [poll]. unfold vm_PowerState, call, asked.
  rewrite Hanswer. reflexivity.
Qed.

Lemma poll_off (fuel : nat) (w : World) :
  powerState R w vm = Done "poweredOff"%string ->
  poll R (S fuel) vm timer w = (Some (Ok tt), asked R vm w).
Proof.
  intros Hanswer. cbn [poll]. unfold vm_PowerState, call, asked.
  rewrite Hanswer. reflexivity.
Qed.

Lemma poll_timeout (fuel : nat) (w : World) (s : string) :
  powerState R w vm = Done s ->
  s <> "poweredOff"%string ->
  ready timer (asked R vm w) = true ->
  poll R (S fuel) vm timer w
  = (Some (Err (errors_New "Timeout while waiting for machine to shut down.")), asked R vm w).
Proof.
  intros Hanswer Hon Hready. apply String.eqb_neq in Hon.
  cbn [poll]. unfold vm_PowerState, call. unfold asked in *.
  rewrite Hanswer in *. cbn [lift]. rewrite Hon, Hready. reflexivity.
Qed.

Lemma poll_again (fuel : nat) (w : World) (s : string) :
  powerState R w vm = Done s ->
  s <> "poweredOff"%string ->
  ready timer (asked R vm w) = false ->
  poll R (S fuel) vm timer w = poll R fuel vm timer (slept R vm w).
Proof.
  intros Hanswer Hon Hready. apply String.eqb_neq in Hon.
  cbn [poll]. unfold vm_PowerState, call, time_Sleep.
  unfold slept, asked in *.
  rewrite Hanswer in *. cbn [lift snd]. rewrite Hon, Hready. reflexivity.
Qed.

(** Every iteration falls under one of the four. *)
Lemma poll_cases (w : World) :
  (exists f, powerState R w vm = Failed f)
  \/ powerState R w vm = Done "poweredOff"%string
  \/ (exists s, powerState R w vm = Done s /\ s <> "poweredOff"%string
                /\ ready timer (asked R vm w) = true)
  \/ (exists s, powerState R w vm = Done s /\ s <> "poweredOff"%string
                /\ ready timer (asked R vm w) = false).
Proof.
  destruct (powerState R w vm) as [s | f] eqn:Hanswer; [ | left; now exists f].
  destruct (String.eqb_spec s "poweredOff") as [-> | Hon]; [right; left; reflexivity | ].
  destruct (ready timer (asked R vm w)) eqn:Hready.
  - right; right; left. now exists s.
  - right; right; right. now exists s.
Qed.

(** The clock does not run backwards, and a sleep takes at least the
    time asked for. *)
Lemma asked_now (w : World) : now w <= now (asked R vm w).
Proof.
  unfold asked. cbn [advance now]. lia.
Qed.

Lemma slept_now (w : World) : now w + 1 <= now (slept R vm w).
Proof.
  pose proof (asked_now w). unfold slept, time_Second. cbn [advance now]. lia.
Qed.

Lemma asked_log (w : World) :
  log (asked R vm w) = log w ++ [PowerState vm (powerState R w vm)].
Proof. reflexivity. Qed.

Lemma slept_log (w : World) :
  log (slept R vm w)
  = log w ++ [PowerState vm (powerState R w vm); Sleep (1 * time_Second)].
Proof.
  unfold slept. cbn [advance log]. rewrite asked_log, <- app_assoc. reflexivity.
Qed.

(** The loop only ever adds to the log. *)
Lemma poll_log (fuel : nat) :
  forall w, exists evs, log (snd (poll R fuel vm timer w)) = log w ++ evs.
Proof.
  induction fuel as [| fuel IH]; intros w.
  - exists []. cbn. now rewrite app_nil_r.
  - destruct (poll_cases w)
      as [[f Hf] | [Hoff | [(s & Hs & Hon & Hready) | (s & Hs & Hon & Hready)]]].
    + rewrite (poll_failed _ _ _ Hf). eexists. apply asked_log.
    + rewrite (poll_off _ _ Hoff). eexists. apply asked_log.
    + rewrite (poll_timeout _ _ _ Hs Hon Hready). eexists. apply asked_log.
    + rewrite (poll_again _ _ _ Hs Hon Hready).
      destruct (IH (slept R vm w)) as [evs Hevs].
      rewrite Hevs, slept_log, <- app_assoc. eexists. reflexivity.
Qed.

(** The loop leaves within [k + 1] iterations when the timer is due in
    at most [k] nanoseconds, and this is what its run looks like. *)
Lemma poll_leaves (k : nat) :
  forall w,
    timer - now w <= Z.of_nat k ->
    exists res w' before answer,
      (forall fuel, (S k <= fuel)%nat -> poll R fuel vm timer w = (Some res, w'))
      /\ log w' = log w ++ before ++ [PowerState vm answer]
      /\ rounds vm before = true
      /\ (   (answer = Done "poweredOff"%string /\ res = Ok tt)
          \/ (exists f, answer = Failed f /\ res = Err (remote f))
          \/ (exists s, answer = Done s /\ s <> "poweredOff"%string
                        /\ res = Err (errors_New
                                        "Timeout while waiting for machine to shut down.")
                        /\ timer <= now w')).
Proof.
  induction k as [| k IH]; intros w Hdue.
  all: destruct (poll_cases w)
         as [[f Hf] | [Hoff | [(s & Hs & Hon & Hready) | (s & Hs & Hon & Hready)]]].
  (* a failed query, a machine that is off, a timer that is ready: the
     loop leaves in this iteration, whatever [k] *)
  1, 5: exists (Err (remote f)), (asked R vm w), [], (Failed f);
        (split; [intros [| fuel] Hfuel; [lia | now apply poll_failed] | ]);
        rewrite asked_log, Hf; repeat split; right; left; now exists f.
  1, 4: exists (Ok tt), (asked R vm w), [], (Done "poweredOff"%string);
        (split; [intros [| fuel] Hfuel; [lia | now apply poll_off] | ]);
        rewrite asked_log, Hoff; repeat split; left; now split.
  1, 3: exists (Err (errors_New "Timeout while waiting for machine to shut down.")),
          (asked R vm w), [], (Done s);
        (split; [intros [| fuel] Hfuel; [lia | now apply (poll_timeout fuel w s)] | ]);
        rewrite asked_log, Hs; repeat split; right; right; exists s;
        repeat split; try assumption; now apply Z.leb_le.
  - (* the timer is due, so the receive cannot have found it not ready *)
    exfalso. unfold ready in Hready. apply Z.leb_gt in Hready.
    pose proof (asked_now w). lia.
  - (* one full round, and the loop again at least a second later *)
    assert (Hlater : timer - now (slept R vm w) <= Z.of_nat k)
      by (pose proof (slept_now w); lia).
    destruct (IH (slept R vm w) Hlater)
      as (res & w' & before & answer & Hrun & Hlog & Hrounds & Hres).
    exists res, w', (PowerState vm (Done s) :: Sleep (1 * time_Second) :: before), answer.
    split; [ | split; [ | split; [ | exact Hres ] ] ].
    + intros [| fuel] Hfuel; [lia | ].
      rewrite (poll_again _ _ _ Hs Hon Hready). apply Hrun. lia.
    + rewrite Hlog, slept_log, Hs, <- app_assoc. reflexivity.
    + cbn [rounds]. apply String.eqb_neq in Hon.
      rewrite ref_eqb_refl, Hon, Hrounds. reflexivity.
Qed.

(** A failed query ends the loop: nothing follows it in the run, and
    its failure is the outcome. *)
Lemma poll_query_failure (fuel : nat) :
  forall w evs before machine f after,
    emits (poll R fuel vm timer) w evs ->
    evs = before ++ PowerState machine (Failed f) :: after ->
    after = [] /\ fst (poll R fuel vm timer w) = Some (Err (remote f)).
Proof.
  unfold emits.
  induction fuel as [| fuel IH]; intros w evs before machine f after Hruns Hshape.
  - cbn in Hruns. strip_log Hruns. subst evs. now destruct before.
  - destruct (poll_cases w)
      as [[f' Hf] | [Hoff | [(s & Hs & Hon & Hready) | (s & Hs & Hon & Hready)]]].
    + rewrite (poll_failed _ _ _ Hf) in *. cbn [fst snd] in *.
      rewrite asked_log, Hf in Hruns. strip_log Hruns. subst evs.
      destruct before as [| ? [| ? ?]]; try discriminate Hshape.
      injection Hshape as _ <- <-. split; reflexivity.
    + rewrite (poll_off _ _ Hoff) in *. cbn [fst snd] in *.
      rewrite asked_log, Hoff in Hruns. strip_log Hruns. subst evs.
      destruct before as [| ? [| ? ?]]; discriminate Hshape.
    + rewrite (poll_timeout _ _ _ Hs Hon Hready) in *. cbn [fst snd] in *.
      rewrite asked_log, Hs in Hruns. strip_log Hruns. subst evs.
      destruct before as [| ? [| ? ?]]; discriminate Hshape.
    + rewrite (poll_again _ _ _ Hs Hon Hready) in *.
      destruct (poll_log fuel (slept R vm w)) as [evs2 Hevs2].
      assert (Hevs : evs = PowerState vm (Done s) :: Sleep (1 * time_Second) :: evs2).
      { rewrite Hevs2, slept_log, Hs in Hruns. strip_log Hruns. congruence. }
      rewrite Hevs in Hshape.
      destruct before as [| b1 [| b2 before]]; try discriminate Hshape.
      injection Hshape as _ _ Hshape.
      exact (IH (slept R vm w) evs2 before machine f after Hevs2 Hshape).
Qed.

End Shutdown.

Lemma WaitForShutdown_grows (R : Remote) (fuel : nat) (vm : object.VirtualMachine)
                            (timeout : Z) :
  grows (WaitForShutdown R fuel vm timeout).
Proof.
  intros w. unfold WaitForShutdown, emits. apply poll_log.
Qed.

(** The world after [k] full rounds of the loop: [k] queries, each
    followed by a sleep of one second. *)
Lemma rounds_log (R : Remote) (vm : object.VirtualMachine) (k : nat) (w : World) :
  exists evs, log (Nat.iter k (slept R vm) w) = log w ++ evs /\ sleeps evs = k.
Proof.
  induction k as [| k [evs [Hlog Hcount]]].
  - exists []. cbn. now rewrite app_nil_r.
  - exists (evs ++ [PowerState vm (powerState R (Nat.iter k (slept R vm) w) vm);
                    Sleep (1 * time_Second)]).
    rewrite Nat.iter_succ, slept_log, Hlog, <- app_assoc.
    split; [reflexivity | ].
    unfold sleeps in *. rewrite filter_app, length_app, Hcount. cbn. lia.
Qed.

(** The schedule of the loop.  When it leaves, it has gone through some
    number [k] of full rounds and one more query: in each of the [k]
    rounds the query was answered with a state other than "poweredOff"
    while the timer had not ticked, and the loop leaves with the world
    right after the next query; if that query too was answered with a
    state other than "poweredOff", the timer had ticked by then. *)
Lemma poll_schedule (R : Remote) (vm : object.VirtualMachine) (timer : Z) (fuel : nat) :
  forall w res w',
    poll R fuel vm timer w = (Some res, w') ->
    exists k,
      w' = asked R vm (Nat.iter k (slept R vm) w)
      /\ (forall i, (i < k)%nat ->
            exists s, powerState R (Nat.iter i (slept R vm) w) vm = Done s
                      /\ s <> "poweredOff"%string
                      /\ ready timer (asked R vm (Nat.iter i (slept R vm) w)) = false)
      /\ (forall s, powerState R (Nat.iter k (slept R vm) w) vm = Done s ->
                    s <> "poweredOff"%string ->
                    ready timer w' = true).
Proof.
  induction fuel as [| fuel IH]; intros w res w' Hleft; [discriminate Hleft | ].
  destruct (poll_cases R vm timer w)
    as [[f Hf] | [Hoff | [(s & Hs & Hon & Hready) | (s & Hs & Hon & Hready)]]].
  - rewrite (poll_failed R vm timer _ _ _ Hf) in Hleft. injection Hleft as _ <-.
    exists 0%nat. cbn [Nat.iter nat_rect].
    split; [reflexivity | split; [intros i Hi; lia | ] ].
    intros s Hs. congruence.
  - rewrite (poll_off R vm timer _ _ Hoff) in Hleft. injection Hleft as _ <-.
    exists 0%nat. cbn [Nat.iter nat_rect].
    split; [reflexivity | split; [intros i Hi; lia | ] ].
    intros s Hs Hon. congruence.
  - rewrite (poll_timeout R vm timer _ _ _ Hs Hon Hready) in Hleft.
    injection Hleft as _ <-.
    exists 0%nat. cbn [Nat.iter nat_rect].
    split; [reflexivity | split; [intros i Hi; lia | ] ].
    intros _ _ _. exact Hready.
  - rewrite (poll_again R vm timer _ _ _ Hs Hon Hready) in Hleft.
    destruct (IH (slept R vm w) res w' Hleft) as (k & Hworld & Hrounds & Hlast).
    exists (S k). rewrite !Nat.iter_succ_r.
    split; [exact Hworld | split; [ | exact Hlast ] ].
    intros [| i] Hi.
    + exists s. cbn [Nat.iter nat_rect]. now repeat split.
    + rewrite Nat.iter_succ_r. apply Hrounds. lia.
Qed.

(** C2. [WaitForShutdown] always returns: there is a number of
    iterations within which the loop leaves, with the same outcome for
    any larger bound.  Its run is a sequence of rounds, each a
    power-state query answered with something other than "poweredOff"
    followed by a sleep of exactly one second, closed by one last query.
    If the last query answers "poweredOff" the result is success; if it
    fails the result is that failure; otherwise the result is the error
    "Timeout while waiting for machine to shut down." and the clock has
    by then reached the deadline, the time of the call plus [timeout].
    The rounds are those the endpoint calls for and no others: in each
    of the [k] rounds the machine was not off and the timer had not
    ticked right after the query, the loop then slept and asked again,
    and it leaves in the world right after the query that follows the
    [k]-th sleep, without waiting any further; a last answer other than
    "poweredOff" means the timer had ticked by that moment. *)
Theorem WaitForShutdown_polling
    (R : Remote) (vm : object.VirtualMachine) (timeout : Z) (w : World) :
  exists n res w' before answer,
    (forall fuel, (n <= fuel)%nat ->
                  WaitForShutdown R fuel vm timeout w = (Some res, w'))
    /\ log w' = log w ++ before ++ [PowerState vm answer]
    /\ rounds vm before = true
    /\ (   (answer = Done "poweredOff"%string /\ res = Ok tt)
        \/ (exists f, answer = Failed f /\ res = Err (remote f))
        \/ (exists s, answer = Done s /\ s <> "poweredOff"%string
                      /\ res = Err (errors_New
                                      "Timeout while waiting for machine to shut down.")
                      /\ now w + timeout <= now w'))
    /\ exists k,
         sleeps before = k
         /\ w' = asked R vm (Nat.iter k (slept R vm) w)
         /\ answer = powerState R (Nat.iter k (slept R vm) w) vm
         /\ (forall i, (i < k)%nat ->
               exists s, powerState R (Nat.iter i (slept R vm) w) vm = Done s
                         /\ s <> "poweredOff"%string
                         /\ ready (time_After R timeout w)
                                  (asked R vm (Nat.iter i (slept R vm) w)) = false)
         /\ (forall s, answer = Done s -> s <> "poweredOff"%string ->
                       ready (time_After R timeout w) w' = true).
Proof.
  unfold WaitForShutdown.
  set (timer := time_After R timeout w).
  destruct (poll_leaves R vm timer (Z.to_nat (timer - now w)) w)
    as (res & w' & before & answer & Hrun & Hlog & Hrounds & Hres); [lia | ].
  exists (S (Z.to_nat (timer - now w))), res, w', before, answer.
  repeat (split; [assumption | ]).
  split.
  - destruct Hres as [Hres | [Hres | (s & Hanswer & Hon & Hresult & Hdue)]]; auto.
    right; right. exists s. repeat split; try assumption.
    subst timer. unfold time_After in Hdue. lia.
  - destruct (poll_schedule R vm timer _ w res w' (Hrun _ (Nat.le_refl _)))
      as (k & Hworld & Hcontinued & Hticked).
    destruct (rounds_log R vm k w) as (evs & Hevs & Hcount).
    assert (Hsame : before ++ [PowerState vm answer]
                    = evs ++ [PowerState vm (powerState R (Nat.iter k (slept R vm) w) vm)]).
    { apply (app_inv_head (log w)). rewrite <- Hlog, Hworld, asked_log, Hevs.
      now rewrite <- app_assoc. }
    apply app_inj_tail in Hsame. destruct Hsame as [Hbefore Hanswer].
    injection Hanswer as Hanswer.
    exists k. subst before.
    split; [exact Hcount | split; [exact Hworld | split; [exact Hanswer | split ] ] ].
    + exact Hcontinued.
    + intros s Hs Hon. apply (Hticked s); congruence.
Qed.

(** C9. If a power-state query made by [WaitForShutdown] fails, the run
    ends with that query (no call follows it) and [WaitForShutdown]
    returns the failure of the query itself. *)
Theorem WaitForShutdown_query_failure
    (R : Remote) (fuel : nat) (vm : object.VirtualMachine) (timeout : Z) (w : World)
    (evs before : list Event) (machine : object.VirtualMachine) (f : Fault)
    (after : list Event) :
  emits (WaitForShutdown R fuel vm timeout) w evs ->
  evs = before ++ PowerState machine (Failed f) :: after ->
  after = [] /\ fst (WaitForShutdown R fuel vm timeout w) = Some (Err (remote f)).
Proof.
  unfold WaitForShutdown. apply poll_query_failure.
Qed.

(** C10. If the power-state query at the moment of the call answers
    "poweredOff", [WaitForShutdown] returns success after that single
    query, for every timeout, be it zero or negative, as soon as the
    loop is allowed one iteration. *)
Theorem WaitForShutdown_already_off
    (R : Remote) (fuel : nat) (vm : object.VirtualMachine) (timeout : Z) (w : World) :
  powerState R w vm = Done "poweredOff"%string ->
  WaitForShutdown R (S fuel) vm timeout w
  = (Some (Ok tt), advance R w 0 (PowerState vm (Done "poweredOff"%string))).
Proof.
  intros Hoff. unfold WaitForShutdown.
  rewrite (poll_off R vm _ fuel w Hoff). unfold asked. rewrite Hoff. reflexivity.
Qed.

(** ** The theorems at work on the laboratory endpoint *)

(** Template "base-no-snap" has no snapshots: a linked clone of it
    fetches the metadata, submits nothing and fails with the error of
    [CloneVM]. *)
Lemma CloneVM_linked_without_snapshot_witness :
  submissions (trace (CloneVM bare dc1 noSnapConfig) dawn) = []
  /\ (exists e, fst (CloneVM bare dc1 noSnapConfig dawn) = Err e)
  /\ ((forall ev, In ev (trace (CloneVM bare dc1 noSnapConfig) dawn) ->
                  isLookup ev = true -> faultOf ev = None) ->
      exists before template r,
        trace (CloneVM bare dc1 noSnapConfig) dawn
        = before ++ [Properties template ["snapshot"] r]
        /\ In (FindVirtualMachine (Template noSnapConfig) (Done template)) before)
  /\ (forall template ps tpl,
        In (Properties template ps (Done tpl)) (trace (CloneVM bare dc1 noSnapConfig) dawn) ->
        fst (CloneVM bare dc1 noSnapConfig dawn)
          = Err (errors_New "`linked_clone=true`, but template has no snapshots")
        /\ exists before,
             trace (CloneVM bare dc1 noSnapConfig) dawn
             = before ++ [Properties template ["snapshot"] (Done tpl)]).
Proof.
  apply (CloneVM_linked_without_snapshot bare dc1 noSnapConfig dawn
           (trace (CloneVM bare dc1 noSnapConfig) dawn)).
  - reflexivity.
  - reflexivity.
  - intros template ps tpl Hin. vm_compute in Hin.
    repeat (destruct Hin as [Hin | Hin]; [try discriminate Hin | ]); [ | contradiction].
    injection Hin as _ _ <-. reflexivity.
Defined.

(** With the chain S1 -> S2 (current), the linked clone is based on S2. *)
Lemma CloneVM_linked_uses_current_snapshot_witness :
  exists before template tpl snapshot folder spec after,
    trace (CloneVM snapshotted dc1 linkedConfig) dawn
    = before ++ Properties template ["snapshot"] (Done tpl)
             :: Submit (object.Clone (ref "VirtualMachine" "tpl1") (ref "Folder" "/dc1/vm/")
                                     "vm1" linkedSpec)
                       (Done (ref "Task" "task-1"))
             :: after
    /\ In (FindVirtualMachine (Template linkedConfig) (Done template)) before
    /\ mo.Snapshot tpl = Some snapshot
    /\ object.Clone (ref "VirtualMachine" "tpl1") (ref "Folder" "/dc1/vm/") "vm1" linkedSpec
       = object.Clone template folder (VMName linkedConfig) spec
    /\ types.DiskMoveType (types.Location spec) = "createNewChildDiskBacking"%string
    /\ types.Snapshot spec = types.CurrentSnapshot snapshot.
Proof.
  apply (proj1 (CloneVM_linked_uses_current_snapshot snapshotted dc1 linkedConfig dawn
                  (trace (CloneVM snapshotted dc1 linkedConfig) dawn) eq_refl eq_refl)).
  vm_compute. tauto.
Defined.


(** The clone of the end-to-end example starts powered off. *)
Lemma CloneVM_power_on_disabled_witness :
  exists template folder spec',
    object.Clone (ref "VirtualMachine" "tpl1") (ref "Folder" "/dc1/vm/") "vm1" plainSpec
    = object.Clone template folder (VMName plainConfig) spec'
    /\ types.PowerOn spec' = false.
Proof.
  apply (CloneVM_power_on_disabled bare dc1 plainConfig dawn
           (trace (CloneVM bare dc1 plainConfig) dawn)
           (object.Clone (ref "VirtualMachine" "tpl1") (ref "Folder" "/dc1/vm/") "vm1" plainSpec)
           (Done (ref "Task" "task-1"))).
  - reflexivity.
  - vm_compute. tauto.
Defined.

(** A destroy whose task fails reports the failure of the task. *)
Lemma tasks_are_awaited_witness :
  settled (DestroyVM locked vm1) dawn (trace (DestroyVM locked vm1) dawn).
Proof.
  apply (proj1 (proj2 (tasks_are_awaited locked)) vm1 dawn (trace (DestroyVM locked vm1) dawn)).
  reflexivity.
Defined.

(** Powering off a running machine: one power-off task, awaited. *)
Lemma PowerOff_submissions_witness :
  exists evs r,
    emits (PowerOff bare vm1) dawn evs
    /\ submissions evs = [Submit (object.PowerOff vm1) r]
    /\ awaited evs = true.
Proof.
  destruct (PowerOff_submissions bare vm1 dawn "poweredOn"%string eq_refl)
    as (evs & Hruns & _ & Hon).
  destruct Hon as (r & Hone & Hawaited & _); [discriminate | ].
  exists evs, r. auto.
Defined.

(** The endpoint is lost during the second query. *)
Lemma WaitForShutdown_query_failure_witness :
  @nil Event = []
  /\ fst (WaitForShutdown lost 10 vm1 (3 * time_Second) dawn)
     = Some (Err (remote "connection reset")).
Proof.
  apply (WaitForShutdown_query_failure lost 10 vm1 (3 * time_Second) dawn
           (trace (WaitForShutdown lost 10 vm1 (3 * time_Second)) dawn)
           [PowerState vm1 (Done "poweredOn"%string); Sleep (1 * time_Second)]
           vm1 "connection reset"%string []).
  - reflexivity.
  - reflexivity.
Defined.

(** A machine that is already off, waited for with no time at all. *)
Lemma WaitForShutdown_already_off_witness :
  WaitForShutdown halted 1 vm1 0 dawn
  = (Some (Ok tt), advance halted dawn 0 (PowerState vm1 (Done "poweredOff"%string))).
Proof.
  apply (WaitForShutdown_already_off halted 0 vm1 0 dawn).
  reflexivity.
Defined.

(** ** The examples of the specification, evaluated *)

(** Timeout of 3 seconds, machine off after 2 polling intervals: success
    at the third query, two seconds in. *)
Example WaitForShutdown_flips_after_two_intervals :
  let R := lab None (offAfter (2 * time_Second)) None in
  WaitForShutdown R 10 vm1 (3 * time_Second) dawn
  = (Some (Ok tt),
     {| now := 2 * time_Second;
        log := [PowerState vm1 (Done "poweredOn"%string); Sleep (1 * time_Second);
                PowerState vm1 (Done "poweredOn"%string); Sleep (1 * time_Second);
                PowerState vm1 (Done "poweredOff"%string)] |}).
Proof. reflexivity. Qed.

(** Timeout of 3 seconds, machine never off: the timeout error, three
    seconds in. *)
Example WaitForShutdown_never_off :
  let R := lab None alwaysOn None in
  fst (WaitForShutdown R 10 vm1 (3 * time_Second) dawn)
  = Some (Err (errors_New "Timeout while waiting for machine to shut down."))
  /\ now (snd (WaitForShutdown R 10 vm1 (3 * time_Second) dawn)) = 3 * time_Second
  /\ List.length (trace (WaitForShutdown R 10 vm1 (3 * time_Second)) dawn) = 7%nat.
Proof. repeat split; reflexivity. Qed.

(** Too small a bound on the iterations: the loop has not left yet. *)
Example WaitForShutdown_out_of_fuel :
  fst (WaitForShutdown (lab None alwaysOn None) 3 vm1 (3 * time_Second) dawn) = None.
Proof. reflexivity. Qed.

(** A destroy whose task fails: the failure of the task is returned. *)
Example DestroyVM_task_failure :
  fst (DestroyVM locked vm1 dawn) = Err (remote "disk is locked")
  /\ trace (DestroyVM locked vm1) dawn
     = [Submit (object.Destroy vm1) (Done (ref "Task" "task-1"));
        WaitForResult (ref "Task" "task-1") (Failed "disk is locked")].
Proof. split; reflexivity. Qed.

(** A machine that is already off is not powered off again. *)
Example PowerOff_already_off :
  PowerOff (lab None alwaysOff None) vm1 dawn
  = (Ok tt, {| now := 0; log := [PowerState vm1 (Done "poweredOff"%string)] |}).
Proof. reflexivity. Qed.

(** Clone(template="tpl1", name="vm1", folder="", pool="", datastore=""):
    the default pool is asked for, and the new machine is returned. *)
Example CloneVM_end_to_end :
  fst (CloneVM (lab None alwaysOn None) dc1 plainConfig dawn)
  = Ok (ref "VirtualMachine" "vm-42")
  /\ filter isFindResourcePool (trace (CloneVM (lab None alwaysOn None) dc1 plainConfig) dawn)
     = [FindResourcePoolOrDefault "" (Done (ref "ResourcePool" ""))].
Proof. split; reflexivity. Qed.

(** The reconfiguration request built from a hardware configuration. *)
Example ConfigureVM_request :
  trace (ConfigureVM (lab None alwaysOn None) vm1 hardware) dawn
  = [Submit (object.Reconfigure vm1
               {| types.NumCPUs := 2; types.MemoryMB := 4096;
                  types.CpuAllocation :=
                    Some {| types.Reservation := 1000; types.Limit := 2000 |};
                  types.MemoryAllocation :=
                    Some {| types.Reservation := 1024; types.Limit := 0 |};
                  types.MemoryReservationLockedToMax := Some true |})
            (Done (ref "Task" "task-1"));
     WaitForResult (ref "Task" "task-1")
       (Done {| types.Result := types.AnyRef (ref "VirtualMachine" "vm-42") |})].
Proof. reflexivity. Qed.

(** ** Further properties of CloneVM *)

(** Once the template is resolved, the next call looks the folder up at
    [/<datacenter>/vm/<folder>], a path that is never empty, even for
    an empty folder name; whatever task the run submits is a clone of
    that template into the folder this lookup returned, under the
    configured name. *)
Theorem CloneVM_template_and_folder
    (R : Remote) (d : Driver) (config : CloneConfig) (w : World) (evs : list Event)
    (tpath : string) (template : object.VirtualMachine) :
  emits (CloneVM R d config) w evs ->
  In (FindVirtualMachine tpath (Done template)) evs ->
  exists fpath r rest,
    evs = FindVirtualMachine (Template config) (Done template)
          :: FindFolderOrDefault fpath r :: rest
    /\ fpath = ("/" ++ object.Name (datacenter d) ++ "/vm/" ++ Folder config)%string
    /\ fpath <> ""%string
    /\ (forall op t, In (Submit op t) evs ->
        exists folder spec,
          r = Done folder /\ op = object.Clone template folder (VMName config) spec).
Proof.
  intros Hruns Hin. revert Hruns Hin. run.
  all: intros Hruns Hin; strip_log Hruns; subst evs; pick_event Hin.
  all: injection Hin as _ <-.
  all: do 3 eexists; (split; [reflexivity | ]); (split; [reflexivity | ]).
  all: (split; [discriminate | ]).
  all: intros op t Hsub; pick_event Hsub.
  all: injection Hsub as <- <-; do 2 eexists; split; reflexivity.
Qed.

(** With an empty datastore name [CloneVM] never looks a datastore up
    and the clone it submits names none; with a non-empty name every
    datastore lookup of the run is by that name, and a submitted clone
    names the datastore that the single lookup returned. *)
Theorem CloneVM_datastore
    (R : Remote) (d : Driver) (config : CloneConfig) (w : World) (evs : list Event) :
  emits (CloneVM R d config) w evs ->
  (Datastore config = ""%string ->
     filter isFindDatastore evs = []
     /\ forall template folder name spec t,
          In (Submit (object.Clone template folder name spec) t) evs ->
          types.Datastore (types.Location spec) = None)
  /\ (Datastore config <> ""%string ->
     (forall path r, In (FindDatastore path r) evs -> path = Datastore config)
     /\ forall template folder name spec t,
          In (Submit (object.Clone template folder name spec) t) evs ->
          exists datastore,
            filter isFindDatastore evs = [FindDatastore (Datastore config) (Done datastore)]
            /\ types.Datastore (types.Location spec) = Some datastore).
Proof.
  intros Hruns. revert Hruns. run.
  all: intros Hruns; strip_log Hruns; subst evs.
  all: match goal with
       | E : (Datastore _ =? "")%string = true |- _ => apply String.eqb_eq in E
       | E : (Datastore _ =? "")%string = false |- _ => apply String.eqb_neq in E
       end.
  all: split; intros Hname; try congruence.
  all: (split;
        [ first [ reflexivity
                | intros path r Hin; pick_event Hin; injection Hin as <- _; reflexivity ]
        | ]).
  all: intros template folder name spec t Hin; pick_event Hin.
  all: injection Hin as _ _ _ <- _; try reflexivity.
  all: eexists; split; reflexivity.
Qed.

(** Without linked clone [CloneVM] never fetches the template's
    properties, and the clone it submits has no base snapshot and leaves
    the disk-move policy unset. *)
Theorem CloneVM_full_clone
    (R : Remote) (d : Driver) (config : CloneConfig) (w : World) (evs : list Event) :
  LinkedClone config = false ->
  emits (CloneVM R d config) w evs ->
  filter isProperties evs = []
  /\ forall template folder name spec t,
       In (Submit (object.Clone template folder name spec) t) evs ->
       types.Snapshot spec = None
       /\ types.DiskMoveType (types.Location spec) = ""%string.
Proof.
  intros Hfull Hruns. revert Hruns. run.
  all: intros Hruns; strip_log Hruns; subst evs.
  all: (split; [reflexivity | ]).
  all: intros template folder name spec t Hin; pick_event Hin.
  all: injection Hin as _ _ _ <- _; split; reflexivity.
Qed.

(** The calls of [CloneVM] come in the order of its text, each kind at
    most once: template, folder, pool, datastore, properties, submit,
    wait. *)
Theorem CloneVM_call_order
    (R : Remote) (d : Driver) (config : CloneConfig) (w : World) (evs : list Event) :
  emits (CloneVM R d config) w evs ->
  ascending (map rank evs) = true.
Proof.
  intros Hruns. revert Hruns. run.
  all: intros Hruns; strip_log Hruns; subst evs; reflexivity.
Qed.

(** When [CloneVM] returns a machine, no call of the run failed, the
    run ends with the clone submission and the wait for its task, and
    the machine returned is the reference that the task reported as its
    result. *)
Theorem CloneVM_success
    (R : Remote) (d : Driver) (config : CloneConfig) (w : World) (evs : list Event)
    (vm : object.VirtualMachine) :
  emits (CloneVM R d config) w evs ->
  fst (CloneVM R d config w) = Ok vm ->
  exists before template folder spec task,
    evs = before ++ [Submit (object.Clone template folder (VMName config) spec) (Done task);
                     WaitForResult task (Done {| types.Result := types.AnyRef vm |})]
    /\ forall ev, In ev evs -> faultOf ev = None.
Proof.
  intros Hruns Hok. revert Hruns Hok. run.
  all: intros Hruns Hok; strip_log Hruns; subst evs; try discriminate Hok.
  all: injection Hok as <-.
  all: first [ refine (ex_intro _ [_; _; _] _); do 4 eexists; (split; [reflexivity | ])
             | refine (ex_intro _ [_; _; _; _] _); do 4 eexists; (split; [reflexivity | ])
             | refine (ex_intro _ [_; _; _; _; _] _); do 4 eexists;
               (split; [reflexivity | ]) ].
  all: intros ev Hin; pick_event Hin; subst ev; reflexivity.
Qed.

(** [CloneVM] panics exactly when the wait for the clone task succeeds
    with a result that is not a managed object reference. *)
Theorem CloneVM_panic
    (R : Remote) (d : Driver) (config : CloneConfig) (w : World) (evs : list Event) :
  emits (CloneVM R d config) w evs ->
  (exists msg, fst (CloneVM R d config w) = Panic msg)
  <-> (exists task descr,
         In (WaitForResult task (Done {| types.Result := types.AnyOther descr |})) evs).
Proof.
  intros Hruns. revert Hruns. run.
  all: intros Hruns; strip_log Hruns; subst evs.
  all: split; [intros [msg Hmsg] | intros (task' & what & Hin)].
  all: try discriminate Hmsg.
  all: try (pick_event Hin; fail).
  all: try (do 2 eexists; cbn [In]; repeat (first [left; reflexivity | right])).
  all: eexists; reflexivity.
Qed.

(** When [CloneVM] returns an error, either the last call of the run
    failed and the error is that failure, or a linked clone was asked
    for, the last call fetched snapshot metadata that is absent, and the
    error is the one built in [CloneVM]. *)
Theorem CloneVM_errors
    (R : Remote) (d : Driver) (config : CloneConfig) (w : World) (evs : list Event)
    (e : error) :
  emits (CloneVM R d config) w evs ->
  fst (CloneVM R d config w) = Err e ->
  exists before ev,
    evs = before ++ [ev]
    /\ (   (exists f, faultOf ev = Some f /\ e = remote f)
        \/ (exists template,
              LinkedClone config = true
              /\ ev = Properties template ["snapshot"] (Done {| mo.Snapshot := None |})
              /\ e = errors_New "`linked_clone=true`, but template has no snapshots")).
Proof.
  intros Hruns Herr. revert Hruns Herr.
  unfold_driver. destruct (LinkedClone config) eqn:Hlinked.
  all: repeat match goal with
         | |- context [String.eqb ?a EmptyString] =>
             let E := fresh "E" in destruct (String.eqb a EmptyString) eqn:E
         end; cbn [negb Bool.eqb]; repeat step; cbn [fst snd advance log now].
  all: intros Hruns Herr; strip_log Hruns; subst evs; try discriminate Herr.
  all: injection Herr as <-.
  all: match goal with
       | |- exists before ev, ?l = _ /\ _ =>
           exists (removelast l); eexists; (split; [reflexivity | ])
       end.
  all: first [ left; eexists; split; reflexivity
             | right; eexists; repeat split; reflexivity ].
Qed.

(** ** Failures *)

Ltac after_failure :=
  let Hruns := fresh "Hruns" in
  let Hin := fresh "Hin" in
  let Hfault := fresh "Hfault" in
  unfold fails_fast; intros ? ? ? ? Hruns Hin Hfault; revert Hruns Hin; run;
  try match goal with
      | |- context [String.eqb ?a ?b] => destruct (String.eqb a b); run
      end;
  intros Hruns Hin; strip_log Hruns; subst; pick_event Hin; subst;
  cbn [faultOf fault] in Hfault; try discriminate Hfault;
  injection Hfault as <-;
  (split; [reflexivity
          | match goal with |- exists before, ?l = _ => exists (removelast l); reflexivity end]).

(** Every method that is a plain sequence of calls fails fast: the first
    call that fails is the last call made, and what the method returns
    is the failure of that call, unchanged. *)
Theorem methods_fail_fast (R : Remote) :
  (forall d config, fails_fast (CloneVM R d config))
  /\ (forall vm, fails_fast (DestroyVM R vm))
  /\ (forall vm config, fails_fast (ConfigureVM R vm config))
  /\ (forall vm, fails_fast (PowerOn R vm))
  /\ (forall vm, fails_fast (WaitForIP R vm))
  /\ (forall vm, fails_fast (PowerOff R vm))
  /\ (forall vm, fails_fast (StartShutdown R vm))
  /\ (forall vm, fails_fast (CreateSnapshot R vm))
  /\ (forall vm, fails_fast (ConvertToTemplate R vm)).
Proof.
  refine (conj _ (conj _ (conj _ (conj _ (conj _ (conj _ (conj _ (conj _ _)))))))).
  - intros d config; after_failure.
  - intros vm; after_failure.
  - intros vm config; after_failure.
  - intros vm; after_failure.
  - intros vm; after_failure.
  - intros vm; after_failure.
  - intros vm; after_failure.
  - intros vm; after_failure.
  - intros vm; after_failure.
Qed.

(** ** The one-task operations *)

Ltac one_task :=
  unfold runs_one_task; intros ?; run;
  do 2 eexists; (split; [rewrite <- ?app_assoc; reflexivity | ]);
  (split; [reflexivity | ]);
  (split;
   [ intros Hok; try discriminate Hok; do 2 eexists; split; reflexivity
   | intros (? & ? & Hr & Hafter); try discriminate Hr; try discriminate Hafter;
     reflexivity ]).

(** [DestroyVM], [PowerOn] and [CreateSnapshot] each start by submitting
    their one task (the snapshot is named "Created by Packer", has an
    empty description, and is taken without memory and without
    quiescing), submit nothing else, and succeed exactly when the task
    was accepted and the wait for it succeeded. *)
Theorem lifecycle_single_task (R : Remote) (vm : object.VirtualMachine) :
  runs_one_task (DestroyVM R vm) (object.Destroy vm)
  /\ runs_one_task (PowerOn R vm) (object.PowerOn vm)
  /\ runs_one_task (CreateSnapshot R vm)
       (object.CreateSnapshot vm "Created by Packer" "" false false).
Proof.
  refine (conj _ (conj _ _)); one_task.
Qed.

(** When the power-state query fails, [PowerOff] returns that failure
    after the query alone: nothing is submitted. *)
Theorem PowerOff_query_failure
    (R : Remote) (vm : object.VirtualMachine) (w : World) (f : Fault) :
  powerState R w vm = Failed f ->
  fst (PowerOff R vm w) = Err (remote f)
  /\ emits (PowerOff R vm) w [PowerState vm (Failed f)].
Proof.
  intros Hlost. unfold_driver.
  change (call R ?ask ?ev w) with (lift (ask w), advance R w 0 (ev (ask w))).
  cbv beta. rewrite Hlost. split; reflexivity.
Qed.

(** ** The pace of WaitForShutdown *)

Lemma slept_second (R : Remote) (vm : object.VirtualMachine) (w : World) :
  now w + time_Second <= now (slept R vm w).
Proof.
  unfold slept, asked. cbn [advance now]. lia.
Qed.

Lemma poll_pace (R : Remote) (vm : object.VirtualMachine) (timer : Z) (fuel : nat) :
  forall w evs,
    emits (poll R fuel vm timer) w evs ->
    now w + Z.of_nat (sleeps evs) * time_Second <= now (snd (poll R fuel vm timer w))
    /\ ((0 < sleeps evs)%nat ->
        now w + (Z.of_nat (sleeps evs) - 1) * time_Second < timer).
Proof.
  unfold emits.
  induction fuel as [| fuel IH]; intros w evs Hruns.
  - cbn in Hruns. strip_log Hruns. subst evs. cbn. split; [lia | intros H; inversion H].
  - destruct (poll_cases R vm timer w)
      as [[f Hf] | [Hoff | [(s & Hs & Hon & Hready) | (s & Hs & Hon & Hready)]]].
    + rewrite (poll_failed R vm timer _ _ _ Hf) in *. cbn [fst snd] in *.
      rewrite asked_log in Hruns. strip_log Hruns. subst evs.
      pose proof (asked_now R vm w). cbn. split; [lia | intros H0; inversion H0].
    + rewrite (poll_off R vm timer _ _ Hoff) in *. cbn [fst snd] in *.
      rewrite asked_log in Hruns. strip_log Hruns. subst evs.
      pose proof (asked_now R vm w). cbn. split; [lia | intros H0; inversion H0].
    + rewrite (poll_timeout R vm timer _ _ _ Hs Hon Hready) in *. cbn [fst snd] in *.
      rewrite asked_log in Hruns. strip_log Hruns. subst evs.
      pose proof (asked_now R vm w). cbn. split; [lia | intros H0; inversion H0].
    + rewrite (poll_again R vm timer _ _ _ Hs Hon Hready) in *.
      destruct (poll_log R vm timer fuel (slept R vm w)) as [evs2 Hevs2].
      assert (Hevs : evs = PowerState vm (powerState R w vm)
                           :: Sleep (1 * time_Second) :: evs2).
      { rewrite Hevs2, slept_log in Hruns. strip_log Hruns. congruence. }
      destruct (IH (slept R vm w) evs2 Hevs2) as [Hspent Hearly].
      pose proof (slept_second R vm w) as Hsecond.
      pose proof (asked_now R vm w) as Hasked.
      unfold ready in Hready. apply Z.leb_gt in Hready.
      assert (Hcount : sleeps evs = S (sleeps evs2)) by (subst evs; reflexivity).
      rewrite Hcount. rewrite Nat2Z.inj_succ.
      split; [lia | intros _].
      destruct (sleeps evs2) as [| n] eqn:Hn; [lia | ].
      assert (Hpos : (0 < S n)%nat) by lia.
      specialize (Hearly Hpos). lia.
Qed.

(** However the wait ends, and whatever the bound on its iterations:
    after [n] sleeps at least [n] seconds have gone by, and the driver
    goes to sleep only while the timer has not ticked, so the last sleep
    began less than [timeout] (plus the timer's lag) after the call.  In
    particular a timer that is due at once allows a single query. *)
Theorem WaitForShutdown_pace
    (R : Remote) (fuel : nat) (vm : object.VirtualMachine) (timeout : Z) (w : World)
    (evs : list Event) :
  emits (WaitForShutdown R fuel vm timeout) w evs ->
  now w + Z.of_nat (sleeps evs) * time_Second
    <= now (snd (WaitForShutdown R fuel vm timeout w))
  /\ ((0 < sleeps evs)%nat ->
      (Z.of_nat (sleeps evs) - 1) * time_Second < timeout + Z.of_N (lag R w))
  /\ (timeout + Z.of_N (lag R w) <= 0 -> sleeps evs = 0%nat).
Proof.
  unfold WaitForShutdown. intros Hruns.
  destruct (poll_pace R vm (time_After R timeout w) fuel w evs Hruns) as [Hspent Hearly].
  unfold time_After in Hearly.
  split; [exact Hspent | split].
  - intros Hpos. specialize (Hearly Hpos). lia.
  - intros Hdue. destruct (sleeps evs) as [| n] eqn:Hn; [reflexivity | ].
    assert (Hpos : (0 < S n)%nat) by lia.
    specialize (Hearly Hpos). unfold time_Second in Hearly. lia.
Qed.

(** ** NewDriver *)

(** A step of [NewDriver] that fails is its last step and its failure
    is what [NewDriver] returns; in that run the finder was never
    scoped to a datacenter. *)
Theorem NewDriver_failure
    (D : Dialer) (config : ConnectConfig) (step : Setup) (f : Fault) :
  In step (snd (NewDriver D config)) ->
  setupFault step = Some f ->
  fst (NewDriver D config) = Err (remote f)
  /\ (exists before, snd (NewDriver D config) = before ++ [step])
  /\ filter isSetDatacenter (snd (NewDriver D config)) = [].
Proof.
  unfold NewDriver. intros Hin Hfault.
  destruct (url_Parse D _) as [parsed | f1];
    [destruct (govmomi_NewClient D _ _) as [c | f2];
     [destruct (finder_DatacenterOrDefault D _ _) as [dc | f3] | ] | ].
  all: cbn [fst snd] in *; pick_event Hin; subst step.
  all: cbn [setupFault fault] in Hfault; try discriminate Hfault.
  all: injection Hfault as <-.
  all: (split; [reflexivity | split; [ | reflexivity ] ]).
  all: match goal with |- exists before, ?l = _ => exists (removelast l); reflexivity end.
Qed.

(** When [NewDriver] succeeds it has parsed [https://<server>/sdk], put
    the configured user name and password on the parsed URL, dialled
    that URL with the configured certificate flag, looked the datacenter
    up by the configured name with the client it obtained, and scoped
    the finder to it; the session returned holds that client and that
    datacenter. *)
Theorem NewDriver_success
    (D : Dialer) (config : ConnectConfig) (s : Session) :
  fst (NewDriver D config) = Ok s ->
  exists parsed,
    snd (NewDriver D config)
    = [Parse ("https://" ++ VCenterServer config ++ "/sdk")%string (Done parsed);
       NewClient {| url.Text := url.Text parsed;
                    url.User := Some {| url.username := Username config;
                                        url.password := Password config |} |}
                 (InsecureConnection config) (Done (client s));
       DatacenterOrDefault (client s) (Datacenter config)
                           (Done (datacenter (driver s)));
       SetDatacenter (client s) (datacenter (driver s))].
Proof.
  unfold NewDriver. intros Hok.
  destruct (url_Parse D _) as [parsed | f1];
    [destruct (govmomi_NewClient D _ _) as [c | f2];
     [destruct (finder_DatacenterOrDefault D _ _) as [dc | f3] | ] | ].
  all: cbn [fst snd] in *; try discriminate Hok.
  injection Hok as <-. exists parsed. reflexivity.
Qed.

(** ** The further properties at work *)

Lemma CloneVM_template_and_folder_witness :
  exists fpath r rest,
    trace (CloneVM bare dc1 plainConfig) dawn
    = FindVirtualMachine "tpl1" (Done (ref "VirtualMachine" "tpl1"))
      :: FindFolderOrDefault fpath r :: rest
    /\ fpath = "/dc1/vm/"%string
    /\ fpath <> ""%string
    /\ (forall op t, In (Submit op t) (trace (CloneVM bare dc1 plainConfig) dawn) ->
        exists folder spec,
          r = Done folder
          /\ op = object.Clone (ref "VirtualMachine" "tpl1") folder "vm1" spec).
Proof.
  apply (CloneVM_template_and_folder bare dc1 plainConfig dawn
           (trace (CloneVM bare dc1 plainConfig) dawn)
           "tpl1"%string (ref "VirtualMachine" "tpl1")).
  - reflexivity.
  - vm_compute. tauto.
Defined.

Lemma CloneVM_datastore_witness :
  exists datastore,
    filter isFindDatastore (trace (CloneVM snapshotted dc1 linkedConfig) dawn)
    = [FindDatastore "ds1" (Done datastore)]
    /\ types.Datastore (types.Location linkedSpec) = Some datastore.
Proof.
  destruct (CloneVM_datastore snapshotted dc1 linkedConfig dawn
              (trace (CloneVM snapshotted dc1 linkedConfig) dawn) eq_refl)
    as [_ Hnamed].
  destruct Hnamed as [_ Hplaced]; [discriminate | ].
  apply (Hplaced (ref "VirtualMachine" "tpl1") (ref "Folder" "/dc1/vm/") "vm1"%string
                 linkedSpec (Done (ref "Task" "task-1"))).
  vm_compute. tauto.
Defined.

Lemma CloneVM_full_clone_witness :
  filter isProperties (trace (CloneVM bare dc1 plainConfig) dawn) = []
  /\ forall template folder name spec t,
       In (Submit (object.Clone template folder name spec) t)
          (trace (CloneVM bare dc1 plainConfig) dawn) ->
       types.Snapshot spec = None
       /\ types.DiskMoveType (types.Location spec) = ""%string.
Proof.
  apply (CloneVM_full_clone bare dc1 plainConfig dawn
           (trace (CloneVM bare dc1 plainConfig) dawn)).
  - reflexivity.
  - reflexivity.
Defined.

Lemma CloneVM_call_order_witness :
  ascending (map rank (trace (CloneVM snapshotted dc1 linkedConfig) dawn)) = true.
Proof.
  apply (CloneVM_call_order snapshotted dc1 linkedConfig dawn).
  reflexivity.
Defined.

Lemma CloneVM_success_witness :
  exists before template folder spec task,
    trace (CloneVM snapshotted dc1 linkedConfig) dawn
    = before ++ [Submit (object.Clone template folder "vm1" spec) (Done task);
                 WaitForResult task
                   (Done {| types.Result := types.AnyRef (ref "VirtualMachine" "vm-42") |})]
    /\ forall ev, In ev (trace (CloneVM snapshotted dc1 linkedConfig) dawn) ->
                  faultOf ev = None.
Proof.
  apply (CloneVM_success snapshotted dc1 linkedConfig dawn
           (trace (CloneVM snapshotted dc1 linkedConfig) dawn)
           (ref "VirtualMachine" "vm-42")).
  - reflexivity.
  - reflexivity.
Defined.

Lemma CloneVM_panic_witness :
  exists msg, fst (CloneVM odd dc1 plainConfig dawn) = Panic msg.
Proof.
  apply (proj2 (CloneVM_panic odd dc1 plainConfig dawn
                  (trace (CloneVM odd dc1 plainConfig) dawn) eq_refl)).
  exists (ref "Task" "task-1"), "nil"%string. vm_compute. tauto.
Defined.

Lemma CloneVM_errors_witness :
  exists before ev,
    trace (CloneVM diskless dc1 linkedConfig) dawn = before ++ [ev]
    /\ (   (exists f, faultOf ev = Some f /\ remote "datastore not found" = remote f)
        \/ (exists template,
              LinkedClone linkedConfig = true
              /\ ev = Properties template ["snapshot"] (Done {| mo.Snapshot := None |})
              /\ remote "datastore not found"
                 = errors_New "`linked_clone=true`, but template has no snapshots")).
Proof.
  apply (CloneVM_errors diskless dc1 linkedConfig dawn
           (trace (CloneVM diskless dc1 linkedConfig) dawn)
           (remote "datastore not found")).
  - reflexivity.
  - reflexivity.
Defined.

Lemma methods_fail_fast_witness :
  fst (CloneVM diskless dc1 linkedConfig dawn) = Err (remote "datastore not found")
  /\ exists before,
       trace (CloneVM diskless dc1 linkedConfig) dawn
       = before ++ [FindDatastore "ds1" (Failed "datastore not found")].
Proof.
  apply (proj1 (methods_fail_fast diskless) dc1 linkedConfig dawn
           (trace (CloneVM diskless dc1 linkedConfig) dawn)
           (FindDatastore "ds1" (Failed "datastore not found"))
           "datastore not found"%string).
  - reflexivity.
  - vm_compute. tauto.
  - reflexivity.
Defined.

Lemma PowerOff_query_failure_witness :
  fst (PowerOff down vm1 dawn) = Err (remote "connection reset")
  /\ emits (PowerOff down vm1) dawn [PowerState vm1 (Failed "connection reset")].
Proof.
  apply (PowerOff_query_failure down vm1 dawn "connection reset"%string).
  reflexivity.
Defined.

(** Three seconds of timeout on a machine that stays on: three sleeps,
    three seconds gone. *)
Lemma WaitForShutdown_pace_witness :
  now dawn + 3 * time_Second
    <= now (snd (WaitForShutdown bare 10 vm1 (3 * time_Second) dawn))
  /\ ((0 < 3)%nat -> (3 - 1) * time_Second < 3 * time_Second + Z.of_N (lag bare dawn))
  /\ (3 * time_Second + Z.of_N (lag bare dawn) <= 0 -> 3%nat = 0%nat).
Proof.
  apply (WaitForShutdown_pace bare 10 vm1 (3 * time_Second) dawn
           (trace (WaitForShutdown bare 10 vm1 (3 * time_Second)) dawn)).
  reflexivity.
Defined.

(** A datacenter name that does not resolve: no session. *)
Lemma NewDriver_failure_witness :
  fst (NewDriver office astray) = Err (remote "datacenter not found")
  /\ (exists before,
        snd (NewDriver office astray)
        = before ++ [DatacenterOrDefault "session-1" "dc9" (Failed "datacenter not found")])
  /\ filter isSetDatacenter (snd (NewDriver office astray)) = [].
Proof.
  apply (NewDriver_failure office astray
           (DatacenterOrDefault "session-1" "dc9" (Failed "datacenter not found"))
           "datacenter not found"%string).
  - vm_compute. tauto.
  - reflexivity.
Defined.

Lemma NewDriver_success_witness :
  exists parsed,
    snd (NewDriver office admin)
    = [Parse "https://vc.lab/sdk" (Done parsed);
       NewClient {| url.Text := url.Text parsed;
                    url.User := Some {| url.username := "root";
                                        url.password := "secret" |} |}
                 true (Done "session-1"%string);
       DatacenterOrDefault "session-1" "" (Done {| object.Name := "dc1" |});
       SetDatacenter "session-1" {| object.Name := "dc1" |}].
Proof.
  apply (NewDriver_success office admin
           {| client := "session-1"%string;
              driver := {| datacenter := {| object.Name := "dc1" |} |} |}).
  reflexivity.
Defined.
